(** * jsonpointer.js: a shallow embedding of [src/jsonpointer.js]

    The library resolves an RFC 6901 JSON Pointer against a JSON document
    given as text.  This file embeds its functions ([getPointedValue],
    [isValidJSONPointer], [parsePointer], [unescapeReferenceToken],
    [getValue] and the small type predicates) together with the part of
    the JavaScript run time they rely on: strings and their [split] and
    [replace], regular expressions and [test], [Number] applied to a
    string, arrays with [reverse] and [pop], and property reads through
    the prototype chain.

    Strings are [string]s of the standard library: one [ascii] stands for
    one code unit, so the model covers the code units 0..255. *)

From Stdlib Require Import String Ascii List Bool Arith NArith ZArith Lia.
From Stdlib Require Import DecimalString DecimalN DecimalFacts.
From Equations Require Import Equations.
Import ListNotations.

Local Open Scope string_scope.
Local Open Scope bool_scope.
Set Warnings "-register-all".

(* ===================================================================== *)
(** * JavaScript strings *)
(* ===================================================================== *)

Module JSString.

(** [s.split(sep)] and [s.replace(new RegExp(pat, 'g'), rep)], for a
    pattern without metacharacters, both scan [s] from the left for
    occurrences of a literal that do not overlap.  [skip] counts the
    characters of an occurrence that are still to be passed over. *)

Fixpoint split_from (sep : string) (skip : nat) (s : string)
  : string * list string :=
  match s with
  | EmptyString => (EmptyString, [])
  | String c s' =>
      match skip with
      | S k => split_from sep k s'
      | O =>
          if prefix sep s
          then let (h, t) := split_from sep (String.length sep - 1) s' in
               (EmptyString, h :: t)
          else let (h, t) := split_from sep 0 s' in
               (String c h, t)
      end
  end.

Definition chars (s : string) : list string :=
  map (fun c => String c EmptyString) (list_ascii_of_string s).

(** [s.split(sep)]: an empty separator splits between all code units. *)
Definition split (sep : string) (s : string) : list string :=
  if String.eqb sep EmptyString then chars s
  else let (h, t) := split_from sep 0 s in h :: t.

(** [s.replace(/pat/g, rep)] for a literal, non-empty [pat], and a
    replacement text without [$]. *)
Fixpoint replace_from (pat rep : string) (skip : nat) (s : string) : string :=
  match s with
  | EmptyString => EmptyString
  | String c s' =>
      match skip with
      | S k => replace_from pat rep k s'
      | O =>
          if prefix pat s
          then rep ++ replace_from pat rep (String.length pat - 1) s'
          else String c (replace_from pat rep 0 s')
      end
  end.

Definition replace_all (pat rep : string) (s : string) : string :=
  replace_from pat rep 0 s.

(** [s[0]], for a string that has a first code unit. *)
Definition first_char (s : string) : option ascii := String.get 0 s.

(** Whether the code unit [c] occurs in [s]. *)
Fixpoint occurs (c : ascii) (s : string) : bool :=
  match s with
  | EmptyString => false
  | String d s' => Ascii.eqb c d || occurs c s'
  end.

End JSString.

(* ===================================================================== *)
(** * Regular expressions *)
(* ===================================================================== *)

Module RegExp.

(** The fragment of the pattern language that the source uses:
    characters, a negated one-character class, grouping, [*] and [+].
    [Void], [Eps] and [Alt] close the fragment under derivatives. *)
Inductive regexp : Type :=
| Void
| Eps
| Chr (c : ascii)
| NotChr (c : ascii)
| Cat (r1 r2 : regexp)
| Alt (r1 r2 : regexp)
| Star (r : regexp)
| Plus (r : regexp).

Fixpoint nullable (r : regexp) : bool :=
  match r with
  | Void => false
  | Eps => true
  | Chr _ => false
  | NotChr _ => false
  | Cat r1 r2 => nullable r1 && nullable r2
  | Alt r1 r2 => nullable r1 || nullable r2
  | Star _ => true
  | Plus r => nullable r
  end.

Fixpoint deriv (a : ascii) (r : regexp) : regexp :=
  match r with
  | Void => Void
  | Eps => Void
  | Chr c => if Ascii.eqb a c then Eps else Void
  | NotChr c => if Ascii.eqb a c then Void else Eps
  | Cat r1 r2 =>
      if nullable r1
      then Alt (Cat (deriv a r1) r2) (deriv a r2)
      else Cat (deriv a r1) r2
  | Alt r1 r2 => Alt (deriv a r1) (deriv a r2)
  | Star r => Cat (deriv a r) (Star r)
  | Plus r => Cat (deriv a r) (Star r)
  end.

(** Some prefix of [s] is matched by [r]: a match that starts at the
    first position of [s]. *)
Fixpoint match_here (r : regexp) (s : string) : bool :=
  nullable r ||
  match s with
  | EmptyString => false
  | String a s' => match_here (deriv a r) s'
  end.

(** [r.test(s)] for a pattern without flags: the pattern is not
    anchored, a match may start at any position of [s]. *)
Fixpoint test (r : regexp) (s : string) : bool :=
  match_here r s ||
  match s with
  | EmptyString => false
  | String _ s' => test r s'
  end.

End RegExp.

(* ===================================================================== *)
(** * [Number] applied to a string *)
(* ===================================================================== *)

Module StringToNumber.

(** [Number(s)] is NaN exactly when [s] is not a StringNumericLiteral
    (ECMAScript 2015 and later, StringToNumber; the editions before had
    no [0o] and [0b] literals).  The recognisers below take the text that
    is left to read and return what follows the part they accept. *)

Definition is_digit (c : ascii) : bool :=
  let n := nat_of_ascii c in (48 <=? n)%nat && (n <=? 57)%nat.

Definition is_hex_digit (c : ascii) : bool :=
  let n := nat_of_ascii c in
  is_digit c || ((65 <=? n)%nat && (n <=? 70)%nat)
             || ((97 <=? n)%nat && (n <=? 102)%nat).

Definition is_octal_digit (c : ascii) : bool :=
  let n := nat_of_ascii c in (48 <=? n)%nat && (n <=? 55)%nat.

Definition is_binary_digit (c : ascii) : bool :=
  let n := nat_of_ascii c in (48 <=? n)%nat && (n <=? 49)%nat.

(** StrWhiteSpaceChar among the code units 0..255: TAB, LF, VT, FF, CR,
    SP and NBSP. *)
Definition is_white_space (c : ascii) : bool :=
  let n := nat_of_ascii c in
  ((9 <=? n)%nat && (n <=? 13)%nat) || (n =? 32)%nat || (n =? 160)%nat.

Definition is_sign (c : ascii) : bool :=
  Ascii.eqb c "+" || Ascii.eqb c "-".

Fixpoint skip (p : ascii -> bool) (s : string) : string :=
  match s with
  | EmptyString => EmptyString
  | String c s' => if p c then skip p s' else s
  end.

Definition starts_with (p : ascii -> bool) (s : string) : bool :=
  match s with
  | EmptyString => false
  | String c _ => p c
  end.

Fixpoint all (p : ascii -> bool) (s : string) : bool :=
  match s with
  | EmptyString => true
  | String c s' => p c && all p s'
  end.

(** One or more characters of the class [p]. *)
Definition some_of (p : ascii -> bool) (s : string) : option string :=
  if starts_with p s then Some (skip p s) else None.

(** An optional sign. *)
Definition sign_opt (s : string) : string :=
  match s with
  | String c s' => if is_sign c then s' else s
  | EmptyString => s
  end.

(** ExponentPart_opt.  An exponent indicator that no SignedInteger
    follows is a failure: left unread, it would not be white space. *)
Definition exponent_opt (s : string) : option string :=
  match s with
  | String c s' =>
      if Ascii.eqb c "e" || Ascii.eqb c "E"
      then some_of is_digit (sign_opt s')
      else Some s
  | EmptyString => Some s
  end.

(** StrUnsignedDecimalLiteral:
    [Infinity], [digits . digits_opt exp_opt], [. digits exp_opt],
    [digits exp_opt]. *)
Definition StrUnsignedDecimalLiteral (s : string) : option string :=
  if prefix "Infinity" s then Some (substring 8 (String.length s - 8) s)
  else
    let int_part := starts_with is_digit s in
    let s1 := skip is_digit s in
    match s1 with
    | String "."%char s2 =>
        let frac_part := starts_with is_digit s2 in
        if int_part || frac_part
        then exponent_opt (skip is_digit s2)
        else None
    | _ => if int_part then exponent_opt s1 else None
    end.

Definition StrDecimalLiteral (s : string) : option string :=
  StrUnsignedDecimalLiteral (sign_opt s).

(** NonDecimalIntegerLiteral: [0x], [0o] and [0b] literals, unsigned. *)
Definition NonDecimalIntegerLiteral (s : string) : option string :=
  match s with
  | String "0"%char (String c s') =>
      if Ascii.eqb c "x" || Ascii.eqb c "X" then some_of is_hex_digit s'
      else if Ascii.eqb c "o" || Ascii.eqb c "O" then some_of is_octal_digit s'
      else if Ascii.eqb c "b" || Ascii.eqb c "B" then some_of is_binary_digit s'
      else None
  | _ => None
  end.

(** Only white space may follow a literal. *)
Definition to_the_end (r : option string) : bool :=
  match r with
  | Some rest => all is_white_space rest
  | None => false
  end.

(** StringNumericLiteral: white space alone, or a literal between
    optional white space. *)
Definition StringNumericLiteral (s : string) : bool :=
  let s := skip is_white_space s in
  String.eqb s EmptyString
  || to_the_end (NonDecimalIntegerLiteral s)
  || to_the_end (StrDecimalLiteral s).

(** [isNaN(Number(s))] for a string [s]. *)
Definition Number_isNaN (s : string) : bool := negb (StringNumericLiteral s).

End StringToNumber.

(* ===================================================================== *)
(** * Values *)
(* ===================================================================== *)

(** A number is kept as the decimal [significand * 10 ^ exponent10] read
    from the text; no function of the library inspects a number. *)
Record number : Type := mkNumber { significand : Z; exponent10 : Z }.

Definition number_of_nat (n : nat) : number := mkNumber (Z.of_nat n) 0.

(** Objects of the run time that a property read can reach. *)
Inductive intrinsic : Type :=
| ObjectPrototype
| ArrayPrototype
| StringPrototype
| BuiltinFunction (name : string).

(** The values of the model: the primitives, arrays and plain objects as
    [JSON.parse] builds them (their prototypes are [Array.prototype] and
    [Object.prototype]), [String] wrapper objects, which [isString]
    accepts, and the intrinsic objects. *)
Inductive value : Type :=
| VUndefined
| VNull
| VBoolean (b : bool)
| VNumber (n : number)
| VString (s : string)
| VArray (elements : list value)
| VObject (properties : list (string * value))
| VStringObject (s : string)
| VIntrinsic (i : intrinsic).

Definition typeof (v : value) : string :=
  match v with
  | VUndefined => "undefined"
  | VNull => "object"
  | VBoolean _ => "boolean"
  | VNumber _ => "number"
  | VString _ => "string"
  | VArray _ => "object"
  | VObject _ => "object"
  | VStringObject _ => "object"
  | VIntrinsic (BuiltinFunction _) => "function"
  | VIntrinsic _ => "object"
  end.

(** [s === v] for a string [s]: an object never equals a primitive. *)
Definition string_strict_equals (s : string) (v : value) : bool :=
  match v with
  | VString s' => String.eqb s s'
  | _ => false
  end.

(** [null === v]. *)
Definition null_strict_equals (v : value) : bool :=
  match v with
  | VNull => true
  | _ => false
  end.

(** [v instanceof String]: [String.prototype] is on the chain of [v]. *)
Definition instanceof_String (v : value) : bool :=
  match v with
  | VStringObject _ => true
  | _ => false
  end.

(** [Array.isArray(v)]; [Array.prototype] is an array itself. *)
Definition Array_isArray (v : value) : bool :=
  match v with
  | VArray _ => true
  | VIntrinsic ArrayPrototype => true
  | _ => false
  end.

(** The text of a string or of a [String] wrapper: what [ToString] and the
    string methods see.  It is applied to values that [isString] accepts. *)
Definition string_data (v : value) : string :=
  match v with
  | VString s => s
  | VStringObject s => s
  | _ => EmptyString
  end.

(* ===================================================================== *)
(** * Property reads *)
(* ===================================================================== *)

(** The own properties of the intrinsic prototypes, by name; each names a
    built-in function, [constructor] apart. *)
Definition ObjectPrototype_methods : list string :=
  [ "__defineGetter__"; "__defineSetter__"; "__lookupGetter__";
    "__lookupSetter__"; "hasOwnProperty"; "isPrototypeOf";
    "propertyIsEnumerable"; "toLocaleString"; "toString"; "valueOf" ].

Definition ArrayPrototype_methods : list string :=
  [ "at"; "concat"; "copyWithin"; "entries"; "every"; "fill"; "filter";
    "find"; "findIndex"; "findLast"; "findLastIndex"; "flat"; "flatMap";
    "forEach"; "includes"; "indexOf"; "join"; "keys"; "lastIndexOf"; "map";
    "pop"; "push"; "reduce"; "reduceRight"; "reverse"; "shift"; "slice";
    "some"; "sort"; "splice"; "toLocaleString"; "toReversed"; "toSorted";
    "toSpliced"; "toString"; "unshift"; "values"; "with" ].

Definition StringPrototype_methods : list string :=
  [ "anchor"; "at"; "big"; "blink"; "bold"; "charAt"; "charCodeAt";
    "codePointAt"; "concat"; "endsWith"; "fixed"; "fontcolor"; "fontsize";
    "includes"; "indexOf"; "isWellFormed"; "italics"; "lastIndexOf"; "link";
    "localeCompare"; "match"; "matchAll"; "normalize"; "padEnd"; "padStart";
    "repeat"; "replace"; "replaceAll"; "search"; "slice"; "small"; "split";
    "startsWith"; "strike"; "sub"; "substr"; "substring"; "sup";
    "toLocaleLowerCase"; "toLocaleUpperCase"; "toLowerCase"; "toString";
    "toUpperCase"; "toWellFormed"; "trim"; "trimEnd"; "trimLeft";
    "trimRight"; "trimStart"; "valueOf" ].

Definition mem (x : string) (l : list string) : bool :=
  existsb (String.eqb x) l.

(** An own property: a data property, or the accessor [__proto__] of
    [Object.prototype], whose getter returns the prototype of the object
    that is read. *)
Inductive property : Type :=
| Data (v : value)
| ProtoAccessor.

(** The own properties of a prototype named [owner] whose constructor is
    [ctor]. *)
Definition prototype_property (owner ctor : string) (methods : list string)
    (P : string) : option property :=
  if String.eqb P "constructor"
  then Some (Data (VIntrinsic (BuiltinFunction ctor)))
  else if mem P methods
  then Some (Data (VIntrinsic (BuiltinFunction (owner ++ "." ++ P))))
  else None.

(** [ToString(i)] for an index, in decimal and without leading zeros. *)
Definition ToString_index (i : N) : string :=
  NilZero.string_of_uint (N.to_uint i).

(** The index that the property key [P] names, if any: [P] is an array
    index when it is the decimal text of its own numeric value. *)
Definition array_index (P : string) : option N :=
  match NilZero.uint_of_string P with
  | Some d =>
      let i := N.of_uint d in
      if String.eqb (ToString_index i) P then Some i else None
  | None => None
  end.

(** The element of a list that the key [P] names: the keys of the
    elements are ["0"], ["1"], ... up to the length. *)
Definition indexed {A : Type} (l : list A) (P : string) : option A :=
  match array_index P with
  | Some i =>
      if (i <? N.of_nat (List.length l))%N
      then nth_error l (N.to_nat i)
      else None
  | None => None
  end.

Fixpoint assoc (P : string) (properties : list (string * value)) : option value :=
  match properties with
  | [] => None
  | (k, v) :: rest => if String.eqb P k then Some v else assoc P rest
  end.

Definition length_property (n : nat) (P : string) : option property :=
  if String.eqb P "length" then Some (Data (VNumber (number_of_nat n))) else None.

Definition or_else {A : Type} (x y : option A) : option A :=
  match x with
  | Some _ => x
  | None => y
  end.

(** [[GetOwnProperty]]: the property of [obj] itself under the key [P]. *)
Definition GetOwnProperty (obj : value) (P : string) : option property :=
  match obj with
  | VObject properties => option_map Data (assoc P properties)
  | VArray elements =>
      or_else (option_map Data (indexed elements P))
              (length_property (List.length elements) P)
  | VStringObject s =>
      or_else (option_map (fun c => Data (VString c)) (indexed (JSString.chars s) P))
              (length_property (String.length s) P)
  | VIntrinsic ObjectPrototype =>
      if String.eqb P "__proto__" then Some ProtoAccessor
      else prototype_property "Object.prototype" "Object" ObjectPrototype_methods P
  | VIntrinsic ArrayPrototype =>
      or_else (length_property 0 P)
              (prototype_property "Array.prototype" "Array" ArrayPrototype_methods P)
  | VIntrinsic StringPrototype =>
      or_else (length_property 0 P)
              (prototype_property "String.prototype" "String" StringPrototype_methods P)
  | _ => None
  end.

(** [[GetPrototypeOf]]; [null] ends a chain. *)
Definition GetPrototypeOf (obj : value) : value :=
  match obj with
  | VObject _ => VIntrinsic ObjectPrototype
  | VArray _ => VIntrinsic ArrayPrototype
  | VStringObject _ => VIntrinsic StringPrototype
  | VIntrinsic ArrayPrototype => VIntrinsic ObjectPrototype
  | VIntrinsic StringPrototype => VIntrinsic ObjectPrototype
  | _ => VNull
  end.

(** An object, its prototype and the prototype of that: no chain of the
    model is longer (lemma [prototype_chain_complete]). *)
Definition prototype_chain (obj : value) : list value :=
  let p1 := GetPrototypeOf obj in
  let p2 := GetPrototypeOf p1 in
  [obj; p1; p2].

Fixpoint find_property (chain : list value) (P : string) : option property :=
  match chain with
  | [] => None
  | obj :: rest => or_else (GetOwnProperty obj P) (find_property rest P)
  end.

(** [obj[P]] for an object [obj] and a string [P]: the first property named
    [P] along the prototype chain of [obj], and [undefined] when there is
    none.  The library reads properties of arrays and objects only. *)
Definition Get (obj : value) (P : string) : value :=
  match find_property (prototype_chain obj) P with
  | Some (Data v) => v
  | Some ProtoAccessor => GetPrototypeOf obj
  | None => VUndefined
  end.

(* ===================================================================== *)
(** * Arrays of tokens *)
(* ===================================================================== *)

(** [a.reverse()] is [rev].  [a.pop()] removes the last element of [a]
    and returns it, [undefined] ([None]) when [a] is empty. *)
Definition pop {A : Type} (a : list A) : option A * list A :=
  match rev a with
  | [] => (None, [])
  | x :: r => (Some x, rev r)
  end.

(* ===================================================================== *)
(** * The library: [jsonpointer.js] *)
(* ===================================================================== *)

(** A thrown [Error] with its message, and the outcome of a call. *)
Inductive error : Type :=
| Error (message : string).

Inductive completion : Type :=
| Return (v : value)
| Throw (e : error).

(** The double quote, for the texts that carry one. *)
Definition dquote : string := String (ascii_of_nat 34) EmptyString.

(** List of special characters and their escape sequences; they are
    unescaped in the order they are listed. *)
Definition SPECIAL_CHARACTERS : list (string * string) :=
  [ ("/", "~1");
    ("~", "~0") ].

Definition TOKENS_SEPARATOR : string := "/".

Definition ERROR_MESSAGE_PREFIX : string := "JSON Pointer: ".

(** The pattern of the source: one or more groups, each a slash followed
    by any number of characters other than a slash; no anchor, no flag. *)
Definition NON_EMPTY_POINTER_REGEXP : RegExp.regexp :=
  RegExp.Plus (RegExp.Cat (RegExp.Chr "/") (RegExp.Star (RegExp.NotChr "/"))).

Module ErrorMessage.
Definition HYPHEN_IS_NOT_SUPPORTED_IN_ARRAY_CONTEXT : string :=
  "Implementation does not support " ++ dquote ++ "-" ++ dquote
  ++ " token for arrays.".
Definition INVALID_DOCUMENT : string := "JSON document is not valid.".
Definition INVALID_DOCUMENT_TYPE : string := "JSON document must be a string.".
Definition INVALID_POINTER : string := "Pointer is not valid.".
Definition NON_NUMBER_TOKEN_IN_ARRAY_CONTEXT : string :=
  "Non-number tokens cannot be used in array context.".
Definition TOKEN_WITH_LEADING_ZERO_IN_ARRAY_CONTEXT : string :=
  "Token with leading zero cannot be used in array context.".
End ErrorMessage.

Definition getError (message : string) : error :=
  Error (ERROR_MESSAGE_PREFIX ++ message).

Definition isObject (o : value) : bool :=
  String.eqb "object" (typeof o) && negb (null_strict_equals o).

Definition isArray (a : value) : bool := Array_isArray a.

(** [!isNaN(Number(n))]; the library applies it to tokens, which are
    strings. *)
Definition isNumber (n : string) : bool :=
  negb (StringToNumber.Number_isNaN n).

Definition isString (s : value) : bool :=
  String.eqb "string" (typeof s) || instanceof_String s.

Definition isUndefined (v : value) : bool :=
  String.eqb "undefined" (typeof v).

(** Returns true if the given pointer is valid: the cases of
    [switch (true)] in their order. *)
Definition isValidJSONPointer (pointer : value) : bool :=
  if negb (isString pointer) then false
  else if string_strict_equals EmptyString pointer then true
  else if RegExp.test NON_EMPTY_POINTER_REGEXP (string_data pointer) then true
  else false.

(** Returns the tokens of a pointer, reversed:
    ['/simple/path' -> ['path', 'simple']]. *)
Definition parsePointer (pointer : value) : list string :=
  let tokens := rev (JSString.split TOKENS_SEPARATOR (string_data pointer)) in
  let (_, tokens) := pop tokens in
  tokens.

(** Decodes all escape sequences of a raw reference token. *)
Definition unescapeReferenceToken (rawReferenceToken : string) : string :=
  fold_left
    (fun referenceToken pair =>
       let character := fst pair in
       let escapeSequence := snd pair in
       JSString.replace_all escapeSequence character referenceToken)
    SPECIAL_CHARACTERS rawReferenceToken.

(** [token.length > 1 && '0' === token[0]] *)
Definition has_leading_zero (token : string) : bool :=
  (1 <? String.length token)%nat &&
  match JSString.first_char token with
  | Some c => Ascii.eqb "0" c
  | None => false
  end.

(** Returns the value pointed by [token] in the evaluation [context];
    throws if an error occurs. *)
Definition getValue (context : value) (token : string) : completion :=
  let token := unescapeReferenceToken token in
  if isArray context then
    if String.eqb "-" token then
      Throw (getError ErrorMessage.HYPHEN_IS_NOT_SUPPORTED_IN_ARRAY_CONTEXT)
    else if negb (isNumber token) then
      Throw (getError ErrorMessage.NON_NUMBER_TOKEN_IN_ARRAY_CONTEXT)
    else if has_leading_zero token then
      Throw (getError ErrorMessage.TOKEN_WITH_LEADING_ZERO_IN_ARRAY_CONTEXT)
    else Return (Get context token)
  else if isObject context then
    Return (Get context token)
  else
    Return VUndefined.

Definition inspect {A : Type} (a : A) : {b : A | a = b} :=
  exist _ a eq_refl.

(** The loop of [getPointedValue]:
    [while (!isUndefined(value) && !isUndefined(token = tokensList.pop()))
       value = getValue(value, token);]
    [pop] shortens [tokensList] at each turn. *)
Equations? getPointedValue_loop (value : value) (tokensList : list string)
  : completion by wf (List.length tokensList) lt :=
  getPointedValue_loop value tokensList with isUndefined value => {
    | true => Return value
    | false with inspect (pop tokensList) => {
        | exist _ (None, _) _ => Return value
        | exist _ (Some token, rest) Hpop with getValue value token => {
            | Throw e => Throw e
            | Return v => getPointedValue_loop v rest } } }.
Proof.
  unfold pop in Hpop. destruct (rev tokensList) as [|x r] eqn:Hrev; [discriminate|].
  inversion Hpop; subst.
  rewrite length_rev, <- (length_rev tokensList), Hrev. simpl. lia.
Qed.

Section Resolution.

(** [JSON.parse], the decoder of the run time: the value that a text
    denotes, [None] where [JSON.parse] throws. *)
Variable JSON_parse : string -> option value.

(** Returns the value of [target] pointed by [pointer], [undefined] if
    [pointer] points to a non-existing value. *)
Definition getPointedValue (target pointer : value) : completion :=
  if negb (isString target) then
    Throw (getError ErrorMessage.INVALID_DOCUMENT_TYPE)
  else if negb (isValidJSONPointer pointer) then
    Throw (getError ErrorMessage.INVALID_POINTER)
  else
    match JSON_parse (string_data target) with
    | None => Throw (getError ErrorMessage.INVALID_DOCUMENT)
    | Some target =>
        let tokensList := parsePointer pointer in
        let value := target in
        getPointedValue_loop value tokensList
    end.

End Resolution.

(* ===================================================================== *)
(** * A decoder of JSON texts *)
(* ===================================================================== *)

(** [getPointedValue] is stated over any decoder.  This one reads the
    JSON grammar over the code units 0..255 and builds values the way
    [JSON.parse] does; the examples run on it. *)
Module JSON.

Import StringToNumber.

Definition is_ws (c : ascii) : bool :=
  let n := nat_of_ascii c in
  (n =? 32)%nat || (n =? 9)%nat || (n =? 10)%nat || (n =? 13)%nat.

Definition digit_value (c : ascii) : Z := Z.of_nat (nat_of_ascii c - 48).

Definition hex_value (c : ascii) : nat :=
  let n := nat_of_ascii c in
  if is_digit c then n - 48
  else if (97 <=? n)%nat then n - 87
  else n - 55.

(** Reads digits: the number read so far, how many digits, the rest. *)
Fixpoint read_digits (acc : Z) (count : nat) (s : string) : Z * nat * string :=
  match s with
  | String c s' =>
      if is_digit c
      then read_digits (10 * acc + digit_value c)%Z (S count) s'
      else (acc, count, s)
  | EmptyString => (acc, count, s)
  end.

(** int: a zero, or digits that do not start with a zero. *)
Definition read_int (s : string) : option (Z * string) :=
  match s with
  | String "0"%char s' => Some (0%Z, s')
  | String c _ =>
      if is_digit c
      then let '(n, _, rest) := read_digits 0 0 s in Some (n, rest)
      else None
  | EmptyString => None
  end.

(** frac_opt: the significand with the digits of the fraction, and
    their count. *)
Definition read_frac (n : Z) (s : string) : option (Z * nat * string) :=
  match s with
  | String "."%char s' =>
      if starts_with is_digit s' then Some (read_digits n 0 s') else None
  | _ => Some (n, O, s)
  end.

(** exp_opt *)
Definition read_exp (s : string) : option (Z * string) :=
  match s with
  | String c s' =>
      if Ascii.eqb c "e" || Ascii.eqb c "E" then
        let negative := starts_with (Ascii.eqb "-") s' in
        let s'' := sign_opt s' in
        if starts_with is_digit s''
        then let '(e, _, rest) := read_digits 0 0 s'' in
             Some (if negative then (- e)%Z else e, rest)
        else None
      else Some (0%Z, s)
  | EmptyString => Some (0%Z, s)
  end.

Definition read_number (s : string) : option (number * string) :=
  let negative := starts_with (Ascii.eqb "-") s in
  let s := if negative then sign_opt s else s in
  match read_int s with
  | None => None
  | Some (n, s1) =>
      match read_frac n s1 with
      | None => None
      | Some (m, k, s2) =>
          match read_exp s2 with
          | None => None
          | Some (e, s3) =>
              Some (mkNumber (if negative then (- m)%Z else m)
                             (e - Z.of_nat k)%Z, s3)
          end
      end
  end.

(** The characters of a string after its opening quote, up to the
    closing quote, with the escapes decoded. *)
Fixpoint read_string (s : string) : option (string * string) :=
  let cons c r :=
    match r with
    | Some (text, rest) => Some (String c text, rest)
    | None => None
    end in
  match s with
  | EmptyString => None
  | String c s' =>
      if (nat_of_ascii c =? 34)%nat then Some (EmptyString, s')
      else if (nat_of_ascii c <? 32)%nat then None
      else if Ascii.eqb c "\" then
        match s' with
        | String "u"%char (String h1 (String h2 (String h3 (String h4 s'')))) =>
            if is_hex_digit h1 && is_hex_digit h2
               && is_hex_digit h3 && is_hex_digit h4
               && (hex_value h1 =? 0)%nat && (hex_value h2 =? 0)%nat
            then cons (ascii_of_nat (16 * hex_value h3 + hex_value h4))
                      (read_string s'')
            else None
        | String e s'' =>
            if (nat_of_ascii e =? 34)%nat || Ascii.eqb e "\" || Ascii.eqb e "/"
            then cons e (read_string s'')
            else if Ascii.eqb e "b" then cons (ascii_of_nat 8) (read_string s'')
            else if Ascii.eqb e "f" then cons (ascii_of_nat 12) (read_string s'')
            else if Ascii.eqb e "n" then cons (ascii_of_nat 10) (read_string s'')
            else if Ascii.eqb e "r" then cons (ascii_of_nat 13) (read_string s'')
            else if Ascii.eqb e "t" then cons (ascii_of_nat 9) (read_string s'')
            else None
        | EmptyString => None
        end
      else cons c (read_string s')
  end.

(** A member defines a property: it replaces the value of a key that
    the object has already, and is added last otherwise. *)
Fixpoint define_property (k : string) (v : value)
    (properties : list (string * value)) : list (string * value) :=
  match properties with
  | [] => [(k, v)]
  | (k', v') :: rest =>
      if String.eqb k k' then (k, v) :: rest
      else (k', v') :: define_property k v rest
  end.

Definition object_of_members (members : list (string * value)) : value :=
  VObject (fold_left (fun ps m => define_property (fst m) (snd m) ps) members []).

Definition drop (n : nat) (s : string) : string :=
  substring n (String.length s - n) s.

(** value, elements and members; every call reads at least one
    character, so the length of the text is fuel enough. *)
Fixpoint read_value (fuel : nat) (s : string) : option (value * string) :=
  match fuel with
  | O => None
  | S fuel =>
      match skip is_ws s with
      | String "["%char r =>
          match skip is_ws r with
          | String "]"%char r' => Some (VArray [], r')
          | _ =>
              match read_elements fuel r with
              | Some (vs, r') => Some (VArray vs, r')
              | None => None
              end
          end
      | String "{"%char r =>
          match skip is_ws r with
          | String "}"%char r' => Some (VObject [], r')
          | _ =>
              match read_members fuel r with
              | Some (ms, r') => Some (object_of_members ms, r')
              | None => None
              end
          end
      | String c r as s0 =>
          if (nat_of_ascii c =? 34)%nat then
            match read_string r with
            | Some (text, r') => Some (VString text, r')
            | None => None
            end
          else if prefix "true" s0 then Some (VBoolean true, drop 4 s0)
          else if prefix "false" s0 then Some (VBoolean false, drop 5 s0)
          else if prefix "null" s0 then Some (VNull, drop 4 s0)
          else
            match read_number s0 with
            | Some (n, r') => Some (VNumber n, r')
            | None => None
            end
      | EmptyString => None
      end
  end
with read_elements (fuel : nat) (s : string) : option (list value * string) :=
  match fuel with
  | O => None
  | S fuel =>
      match read_value fuel s with
      | Some (v, r) =>
          match skip is_ws r with
          | String ","%char r' =>
              match read_elements fuel r' with
              | Some (vs, r'') => Some (v :: vs, r'')
              | None => None
              end
          | String "]"%char r' => Some ([v], r')
          | _ => None
          end
      | None => None
      end
  end
with read_members (fuel : nat) (s : string)
  : option (list (string * value) * string) :=
  match fuel with
  | O => None
  | S fuel =>
      match skip is_ws s with
      | String q r =>
          if (nat_of_ascii q =? 34)%nat then
            match read_string r with
            | Some (k, r1) =>
                match skip is_ws r1 with
                | String ":"%char r2 =>
                    match read_value fuel r2 with
                    | Some (v, r3) =>
                        match skip is_ws r3 with
                        | String ","%char r4 =>
                            match read_members fuel r4 with
                            | Some (ms, r5) => Some ((k, v) :: ms, r5)
                            | None => None
                            end
                        | String "}"%char r4 => Some ([(k, v)], r4)
                        | _ => None
                        end
                    | None => None
                    end
                | _ => None
                end
            | None => None
            end
          else None
      | EmptyString => None
      end
  end.

(** [JSON.parse(text)]: one value between optional white space. *)
Definition parse (text : string) : option value :=
  match read_value (S (String.length text)) text with
  | Some (v, rest) =>
      if String.eqb (skip is_ws rest) EmptyString then Some v else None
  | None => None
  end.

(** JSON texts are written here with an apostrophe where the text has a
    double quote. *)
Fixpoint text (s : string) : string :=
  match s with
  | EmptyString => EmptyString
  | String c s' =>
      String (if Ascii.eqb c "'" then ascii_of_nat 34 else c) (text s')
  end.

End JSON.

(* ===================================================================== *)
(** * The specification's side *)
(* ===================================================================== *)

(** The definitions of this part follow the words of the specification;
    the theorems compare them with the library. *)

(** The tokens of a pointer in root-to-leaf order: the pointer is split
    on the separator and the first element is discarded. *)
Definition tokens_of_pointer (pointer : string) : list string :=
  tl (JSString.split TOKENS_SEPARATOR pointer).

Definition bind (c : completion) (k : value -> completion) : completion :=
  match c with
  | Return v => k v
  | Throw e => Throw e
  end.

(** The left fold of the Evaluator step over a sequence of tokens. *)
Definition evaluate (document : value) (tokens : list string) : completion :=
  fold_left (fun acc token => bind acc (fun context => getValue context token))
            tokens (Return document).

(** Re-escaping: every tilde becomes [~0], then every slash becomes [~1]. *)
Definition escapeReferenceToken (token : string) : string :=
  JSString.replace_all "/" "~1" (JSString.replace_all "~" "~0" token).

(** The text [pat] occurs in [s]. *)
Fixpoint contains (pat s : string) : bool :=
  prefix pat s ||
  match s with
  | EmptyString => false
  | String _ s' => contains pat s'
  end.

(** A raw token as an escaper writes it: no slash, and every tilde is
    followed by [0] or [1]. *)
Fixpoint well_escaped (s : string) : bool :=
  match s with
  | EmptyString => true
  | String c s' =>
      if Ascii.eqb c "~" then
        match s' with
        | String d s'' => (Ascii.eqb d "0" || Ascii.eqb d "1") && well_escaped s''
        | EmptyString => false
        end
      else negb (Ascii.eqb c "/") && well_escaped s'
  end.

(** A base-10 integer: digits, after an optional minus sign. *)
Definition base10_integer (s : string) : bool :=
  let digits :=
    match s with
    | String "-"%char s' => s'
    | _ => s
    end in
  StringToNumber.starts_with StringToNumber.is_digit digits
  && StringToNumber.all StringToNumber.is_digit digits.

(** One or more groups, each a slash followed by characters other than a
    slash. *)
Inductive pointer_groups : string -> Prop :=
| groups_last (segment : string) :
    JSString.occurs "/" segment = false ->
    pointer_groups (String "/" segment)
| groups_more (segment rest : string) :
    JSString.occurs "/" segment = false ->
    pointer_groups rest ->
    pointer_groups (String "/" segment ++ rest).

(* ===================================================================== *)
(** * Definitions for the proofs *)
(* ===================================================================== *)

(** The well-escaped tokens, as a proof reads them: plain characters,
    [~0] and [~1], one after the other. *)
Inductive Escaped : string -> Prop :=
| Escaped_nil : Escaped EmptyString
| Escaped_plain (c : ascii) (s : string) :
    c <> "~"%char -> c <> "/"%char -> Escaped s -> Escaped (String c s)
| Escaped_tilde (s : string) :
    Escaped s -> Escaped (String "~" (String "0" s))
| Escaped_slash (s : string) :
    Escaped s -> Escaped (String "~" (String "1" s)).

(** The loop of [getPointedValue] once more, with a log of the tokens
    that it hands to [getValue], in the order of the calls. *)
Equations? getPointedValue_loop_log (value : value) (tokensList : list string)
  : completion * list string by wf (List.length tokensList) lt :=
  getPointedValue_loop_log value tokensList with isUndefined value => {
    | true => (Return value, [])
    | false with inspect (pop tokensList) => {
        | exist _ (None, _) _ => (Return value, [])
        | exist _ (Some token, rest) Hpop with getValue value token => {
            | Throw e => (Throw e, [token])
            | Return v =>
                let (result, log) := getPointedValue_loop_log v rest in
                (result, token :: log) } } }.
Proof.
  unfold pop in Hpop. destruct (rev tokensList) as [|x r] eqn:Hrev; [discriminate|].
  inversion Hpop; subst.
  rewrite length_rev, <- (length_rev tokensList), Hrev. simpl. lia.
Qed.

(** A pointer written from its tokens, root first: each token after a
    slash. *)
Fixpoint pointer_of_tokens (tokens : list string) : string :=
  match tokens with
  | [] => EmptyString
  | token :: tokens' => String "/" (token ++ pointer_of_tokens tokens')
  end.

(** The member of a document at the end of a path of keys and indices:
    a key is looked up among the properties of an object itself, an
    index among the elements of an array. *)
Fixpoint member (v : value) (path : list string) : option value :=
  match path with
  | [] => Some v
  | k :: path' =>
      match v with
      | VObject properties =>
          match assoc k properties with
          | Some v' => member v' path'
          | None => None
          end
      | VArray elements =>
          match indexed elements k with
          | Some v' => member v' path'
          | None => None
          end
      | _ => None
      end
  end.

(** The document [{"a":{"b":[1,2,3]}}] of the examples. *)
Definition example_document : value :=
  VString (JSON.text "{'a':{'b':[1,2,3]}}").

(** The failures of a step are the three of the array context. *)
Definition step_failure (e : error) : Prop :=
  e = getError ErrorMessage.HYPHEN_IS_NOT_SUPPORTED_IN_ARRAY_CONTEXT
  \/ e = getError ErrorMessage.NON_NUMBER_TOKEN_IN_ARRAY_CONTEXT
  \/ e = getError ErrorMessage.TOKEN_WITH_LEADING_ZERO_IN_ARRAY_CONTEXT.

(** The tokens that the loop hands to [getValue], read off the list of
    tokens from the root to the leaf. *)
Fixpoint evaluated (v : value) (tokens : list string) : list string :=
  match tokens with
  | [] => []
  | token :: tokens' =>
      if isUndefined v then []
      else match getValue v token with
           | Throw _ => [token]
           | Return v' => token :: evaluated v' tokens'
           end
  end.

(* ===================================================================== *)
(** * Theorems: how the scans of a string step *)
(* ===================================================================== *)

Section StringSteps.

Import JSString.

Lemma prefix_empty (s : string) : prefix EmptyString s = true.
Proof. destruct s; reflexivity. Qed.

Lemma prefix_String (a b : ascii) (s1 s2 : string) :
  prefix (String a s1) (String b s2) = Ascii.eqb a b && prefix s1 s2.
Proof.
  change (prefix (String a s1) (String b s2))
    with (if ascii_dec a b then prefix s1 s2 else false).
  destruct (ascii_dec a b) as [->|Hne].
  - now rewrite Ascii.eqb_refl.
  - apply Ascii.eqb_neq in Hne. now rewrite Hne.
Qed.

Lemma replace_from_here (pat rep : string) (c : ascii) (s : string) :
  replace_from pat rep 0 (String c s)
  = if prefix pat (String c s)
    then rep ++ replace_from pat rep (String.length pat - 1) s
    else String c (replace_from pat rep 0 s).
Proof. reflexivity. Qed.

Lemma replace_from_skip (pat rep : string) (k : nat) (c : ascii) (s : string) :
  replace_from pat rep (S k) (String c s) = replace_from pat rep k s.
Proof. reflexivity. Qed.

Lemma eqb_neq_l (a c : ascii) : c <> a -> Ascii.eqb a c = false.
Proof. intro H. apply Ascii.eqb_neq. congruence. Qed.

End StringSteps.

Create Rewrite HintDb scan.
#[local] Hint Rewrite prefix_empty prefix_String
  replace_from_here replace_from_skip : scan.

(** Unfolds the scans over the characters in sight; [eqb_neq_l] decides
    the comparisons with a character that is known to differ. *)
Ltac scan :=
  repeat (autorewrite with scan; cbn [Ascii.eqb Bool.eqb andb orb negb
                                      String.length Nat.sub append]).

(* ===================================================================== *)
(** * Escaping *)
(* ===================================================================== *)

Section Escaping.

Import JSString.

Lemma unescape_char (c : ascii) (s : string) :
  c <> "~"%char ->
  unescapeReferenceToken (String c s) = String c (unescapeReferenceToken s).
Proof.
  intro Hc. unfold unescapeReferenceToken, replace_all. cbn [fold_left SPECIAL_CHARACTERS fst snd].
  autorewrite with scan. rewrite (eqb_neq_l _ _ Hc). cbn [andb].
  autorewrite with scan. rewrite (eqb_neq_l _ _ Hc). reflexivity.
Qed.

Lemma unescape_slash (s : string) :
  unescapeReferenceToken (String "~" (String "1" s))
  = String "/" (unescapeReferenceToken s).
Proof.
  unfold unescapeReferenceToken, replace_all. cbn [fold_left SPECIAL_CHARACTERS fst snd].
  scan. reflexivity.
Qed.

Lemma unescape_tilde (s : string) :
  unescapeReferenceToken (String "~" (String "0" s))
  = String "~" (unescapeReferenceToken s).
Proof.
  unfold unescapeReferenceToken, replace_all. cbn [fold_left SPECIAL_CHARACTERS fst snd].
  scan. reflexivity.
Qed.

Lemma escape_char (c : ascii) (s : string) :
  c <> "~"%char -> c <> "/"%char ->
  escapeReferenceToken (String c s) = String c (escapeReferenceToken s).
Proof.
  intros Ht Hs. unfold escapeReferenceToken, replace_all.
  autorewrite with scan. rewrite (eqb_neq_l _ _ Ht). cbn [andb].
  autorewrite with scan. rewrite (eqb_neq_l _ _ Hs). reflexivity.
Qed.

Lemma escape_tilde (s : string) :
  escapeReferenceToken (String "~" s)
  = String "~" (String "0" (escapeReferenceToken s)).
Proof. unfold escapeReferenceToken, replace_all. scan. reflexivity. Qed.

Lemma escape_slash (s : string) :
  escapeReferenceToken (String "/" s)
  = String "~" (String "1" (escapeReferenceToken s)).
Proof. unfold escapeReferenceToken, replace_all. scan. reflexivity. Qed.

Lemma well_escaped_Escaped (s : string) :
  well_escaped s = true <-> Escaped s.
Proof.
  split.
  - enough (H : (well_escaped s = true -> Escaped s) /\
                (forall c, well_escaped (String c s) = true -> Escaped (String c s)))
      by apply H.
    induction s as [|d s [IH1 IH2]].
    + split; [constructor|].
      intros c H. cbn in H.
      destruct (Ascii.eqb c "~") eqn:Et; [discriminate|].
      destruct (Ascii.eqb c "/") eqn:Es; [discriminate|].
      apply Ascii.eqb_neq in Et, Es.
      apply Escaped_plain; [assumption..|constructor].
    + split; [apply IH2|].
      intros c H. cbn [well_escaped] in H.
      destruct (Ascii.eqb c "~") eqn:Et.
      * apply Ascii.eqb_eq in Et. subst c.
        apply andb_true_iff in H as [Hd Hs].
        apply orb_true_iff in Hd as [Hd|Hd]; apply Ascii.eqb_eq in Hd; subst d;
          [apply Escaped_tilde | apply Escaped_slash]; auto.
      * apply andb_true_iff in H as [Hc Hs].
        apply negb_true_iff in Hc. apply Ascii.eqb_neq in Et, Hc.
        apply Escaped_plain; auto.
  - induction 1 as [|c s Ht Hs _ IH|s _ IH|s _ IH]; cbn [well_escaped].
    + reflexivity.
    + apply Ascii.eqb_neq in Ht, Hs. now rewrite Ht, Hs.
    + exact IH.
    + exact IH.
Qed.

Lemma escape_unescape_Escaped (raw : string) :
  Escaped raw -> escapeReferenceToken (unescapeReferenceToken raw) = raw.
Proof.
  induction 1 as [|c s Ht Hs _ IH|s _ IH|s _ IH].
  - reflexivity.
  - rewrite unescape_char, escape_char, IH by assumption. reflexivity.
  - rewrite unescape_tilde, escape_tilde, IH. reflexivity.
  - rewrite unescape_slash, escape_slash, IH. reflexivity.
Qed.

(** What an escaper writes is well escaped. *)
Lemma Escaped_escape (token : string) : Escaped (escapeReferenceToken token).
Proof.
  induction token as [|c s IH]; [constructor|].
  destruct (ascii_dec c "~") as [->|Ht].
  - rewrite escape_tilde. now apply Escaped_tilde.
  - destruct (ascii_dec c "/") as [->|Hs].
    + rewrite escape_slash. now apply Escaped_slash.
    + rewrite escape_char by assumption. now apply Escaped_plain.
Qed.

End Escaping.

(** C4, as amended: re-escaping an unescaped raw token gives the raw
    token back exactly when the raw token is well escaped: it has no
    slash and each of its tildes is followed by [0] or [1]. *)
Theorem escape_unescape_roundtrip (raw : string) :
  escapeReferenceToken (unescapeReferenceToken raw) = raw
  <-> well_escaped raw = true.
Proof.
  rewrite well_escaped_Escaped. split.
  - intros <-. apply Escaped_escape.
  - apply escape_unescape_Escaped.
Qed.

(** C4 as the specification states it fails: the raw token [~0~] contains
    [~0], and comes back as [~0~0]. *)
Lemma roundtrip_fails_on_stray_tilde :
  ~ (forall raw : string,
        contains "~0" raw || contains "~1" raw = true ->
        escapeReferenceToken (unescapeReferenceToken raw) = raw).
Proof.
  intro H. specialize (H "~0~" eq_refl). vm_compute in H. discriminate H.
Qed.

(* ===================================================================== *)
(** * Validation of a pointer *)
(* ===================================================================== *)

Section Validation.

Import RegExp.

(** An expression that accepts no word and is its own derivative
    matches at no position. *)
Lemma match_here_dead (r : regexp) :
  nullable r = false -> (forall a, deriv a r = r) ->
  forall s, match_here r s = false.
Proof.
  intros Hn Hd s. induction s as [|a s IH]; cbn [match_here].
  - now rewrite Hn.
  - now rewrite Hn, Hd.
Qed.

Lemma match_here_nullable (r : regexp) (s : string) :
  nullable r = true -> match_here r s = true.
Proof. intro H. destruct s; cbn [match_here]; now rewrite H. Qed.

(** The pattern matches at a position exactly when a slash stands there. *)
Lemma match_here_pointer (s : string) :
  match_here NON_EMPTY_POINTER_REGEXP s = prefix "/" s.
Proof.
  destruct s as [|c s]; [reflexivity|].
  rewrite prefix_String, prefix_empty, andb_true_r.
  unfold NON_EMPTY_POINTER_REGEXP.
  cbn [match_here nullable deriv andb orb].
  rewrite (Ascii.eqb_sym "/" c).
  destruct (Ascii.eqb c "/").
  - apply match_here_nullable. reflexivity.
  - apply match_here_dead; reflexivity.
Qed.

(** Not anchored, the pattern finds a match in every string in which a
    slash occurs. *)
Lemma test_pointer (s : string) :
  test NON_EMPTY_POINTER_REGEXP s = JSString.occurs "/" s.
Proof.
  induction s as [|c s IH]; [reflexivity|].
  cbn [test JSString.occurs]. rewrite IH, match_here_pointer.
  now rewrite prefix_String, prefix_empty, andb_true_r.
Qed.

Lemma isValidJSONPointer_string (s : string) :
  isValidJSONPointer (VString s)
  = String.eqb EmptyString s || JSString.occurs "/" s.
Proof.
  unfold isValidJSONPointer. cbn [isString typeof String.eqb Ascii.eqb Bool.eqb
    orb negb string_strict_equals string_data].
  rewrite test_pointer.
  destruct (String.eqb EmptyString s), (JSString.occurs "/" s); reflexivity.
Qed.

Lemma isValidJSONPointer_wrapper (s : string) :
  isValidJSONPointer (VStringObject s) = JSString.occurs "/" s.
Proof.
  unfold isValidJSONPointer. cbn. rewrite test_pointer.
  destruct (JSString.occurs "/" s); reflexivity.
Qed.

Lemma isValidJSONPointer_not_string (v : value) :
  isString v = false -> isValidJSONPointer v = false.
Proof. intro H. unfold isValidJSONPointer. now rewrite H. Qed.

Lemma pointer_groups_rooted (s : string) :
  pointer_groups s -> prefix "/" s = true.
Proof.
  destruct 1; cbn [append]; now rewrite prefix_String, prefix_empty.
Qed.

(** Every string that starts with a slash is made of such groups: a
    segment may be empty. *)
Lemma rooted_pointer_groups (s : string) : pointer_groups (String "/" s).
Proof.
  induction s as [|c s IH]; [now apply groups_last|].
  destruct (Ascii.eqb "/" c) eqn:E.
  - apply Ascii.eqb_eq in E. subst c.
    apply (groups_more EmptyString (String "/" s)); [reflexivity|exact IH].
  - inversion IH as [segment Hseg Heq | segment rest Hseg Hrest Heq].
    + apply groups_last. cbn [JSString.occurs]. now rewrite E, Hseg.
    + apply (groups_more (String c segment) rest); [|exact Hrest].
      cbn [JSString.occurs]. now rewrite E, Hseg.
Qed.

Lemma pointer_groups_iff_rooted (s : string) :
  pointer_groups s <-> prefix "/" s = true.
Proof.
  split; [apply pointer_groups_rooted|].
  destruct s as [|c s]; [discriminate|].
  rewrite prefix_String, prefix_empty, andb_true_r. intro H.
  apply Ascii.eqb_eq in H. subst c. apply rooted_pointer_groups.
Qed.

(** The parts of the contract that the validator keeps: a value that is
    no string is not valid, the empty string is valid, every string of
    one or more groups is valid, and a non-empty string in which no slash
    occurs is not valid. *)
Lemma isValidJSONPointer_accepts :
  (forall v, isString v = false -> isValidJSONPointer v = false)
  /\ isValidJSONPointer (VString EmptyString) = true
  /\ (forall s, pointer_groups s -> isValidJSONPointer (VString s) = true)
  /\ (forall s, s <> EmptyString -> JSString.occurs "/" s = false ->
                isValidJSONPointer (VString s) = false)
  /\ isValidJSONPointer (VString "no-leading-slash") = false
  /\ isValidJSONPointer (VString "/a/b") = true.
Proof.
  split; [exact isValidJSONPointer_not_string|].
  split; [reflexivity|]. split; [|split; [|split; reflexivity]].
  - intros s H. rewrite isValidJSONPointer_string.
    destruct H; cbn [JSString.occurs Ascii.eqb Bool.eqb]; apply orb_true_r.
  - intros s Hne Ho. rewrite isValidJSONPointer_string, Ho, orb_false_r.
    destruct s; [congruence|reflexivity].
Qed.

End Validation.

(** C2 (a defect of the code): the pattern is not anchored, so the
    validator accepts every string in which a slash occurs, also one that
    does not start with a slash.  For ["a/b"] it answers true, and
    [parsePointer] then drops the first element ["a"], which is not the
    empty string that its comment expects, and resolves ["b"] alone. *)
Theorem isValidJSONPointer_accepts_unrooted :
  isValidJSONPointer (VString "a/b") = true
  /\ prefix "/" "a/b" = false
  /\ parsePointer (VString "a/b") = ["b"]
  /\ (forall s, JSString.occurs "/" s = true -> isValidJSONPointer (VString s) = true).
Proof.
  repeat split; try reflexivity.
  intros s H. rewrite isValidJSONPointer_string, H. apply orb_true_r.
Qed.

(* ===================================================================== *)
(** * Resolution: the loop is a fold over the tokens *)
(* ===================================================================== *)

Section Loop.

Lemma isUndefined_true (v : value) : isUndefined v = true <-> v = VUndefined.
Proof.
  split; [|now intros ->].
  destruct v as [| | | | | | | |[]]; cbn; congruence.
Qed.

Lemma getValue_undefined (token : string) :
  getValue VUndefined token = Return VUndefined.
Proof. reflexivity. Qed.

Lemma fold_Throw (e : error) (tokens : list string) :
  fold_left (fun acc token => bind acc (fun context => getValue context token))
            tokens (Throw e) = Throw e.
Proof. induction tokens as [|t ts IH]; [reflexivity|exact IH]. Qed.

Lemma evaluate_nil (v : value) : evaluate v [] = Return v.
Proof. reflexivity. Qed.

Lemma evaluate_cons (v : value) (token : string) (tokens : list string) :
  evaluate v (token :: tokens)
  = bind (getValue v token) (fun v' => evaluate v' tokens).
Proof.
  unfold evaluate. cbn [fold_left bind].
  destruct (getValue v token) as [v'|e]; [reflexivity|apply fold_Throw].
Qed.

Lemma evaluate_app (v : value) (pre post : list string) :
  evaluate v (pre ++ post)%list
  = bind (evaluate v pre) (fun v' => evaluate v' post).
Proof.
  revert v. induction pre as [|t ts IH]; intro v; [reflexivity|].
  cbn [app]. rewrite !evaluate_cons.
  destruct (getValue v t) as [v'|e]; [apply IH|reflexivity].
Qed.

(** From "absent" the fold stays at "absent": no token raises a
    failure there. *)
Lemma evaluate_undefined (tokens : list string) :
  evaluate VUndefined tokens = Return VUndefined.
Proof.
  induction tokens as [|t ts IH]; [reflexivity|].
  now rewrite evaluate_cons, getValue_undefined.
Qed.

Lemma pop_None {A : Type} (a r : list A) : pop a = (None, r) -> a = [].
Proof.
  unfold pop. destruct (rev a) as [|x l] eqn:E; [|discriminate].
  intros _. apply (f_equal (@rev A)) in E. now rewrite rev_involutive in E.
Qed.

Lemma pop_Some {A : Type} (a r : list A) (x : A) :
  pop a = (Some x, r) -> rev a = x :: rev r.
Proof.
  unfold pop. destruct (rev a) as [|y l] eqn:E; [discriminate|].
  intros [= -> <-]. now rewrite rev_involutive.
Qed.

Lemma pop_rev_cons {A : Type} (x : A) (l : list A) :
  pop (rev (x :: l)) = (Some x, rev l).
Proof. unfold pop. now rewrite rev_involutive. Qed.

(** The loop consumes its reversed list from the end: it is the fold
    over the list read backwards. *)
Lemma getPointedValue_loop_evaluate (v : value) (tokensList : list string) :
  getPointedValue_loop v tokensList = evaluate v (rev tokensList).
Proof.
  funelim (getPointedValue_loop v tokensList);
    repeat match goal with
      | H : exist _ _ _ = _ |- _ => clear H
      | H : sigmaI _ _ _ = _ |- _ => clear H
      | H : isUndefined _ = true |- _ => apply isUndefined_true in H; subst
      | H : pop _ = (None, _) |- _ => apply pop_None in H; subst
      | H : pop _ = (Some _, _) |- _ => apply pop_Some in H; rewrite H
      end.
  - now rewrite evaluate_undefined.
  - reflexivity.
  - rewrite evaluate_cons.
    match goal with H : getValue _ _ = _ |- _ => rewrite H end.
    cbn [bind]. assumption.
  - rewrite evaluate_cons.
    match goal with H : getValue _ _ = _ |- _ => now rewrite H end.
Qed.

Lemma split_cons (sep s : string) :
  sep <> EmptyString ->
  exists h t, JSString.split sep s = h :: t.
Proof.
  intro H. unfold JSString.split.
  destruct (String.eqb sep EmptyString) eqn:E.
  - apply String.eqb_eq in E. contradiction.
  - destruct (JSString.split_from sep 0 s) as [h t]. now exists h, t.
Qed.

(** The reversed list of [parsePointer], read backwards, is the list
    of the tokens from the root to the leaf. *)
Lemma rev_parsePointer (pointer : value) :
  rev (parsePointer pointer) = tokens_of_pointer (string_data pointer).
Proof.
  unfold parsePointer, tokens_of_pointer.
  destruct (split_cons TOKENS_SEPARATOR (string_data pointer)) as (h & t & E);
    [discriminate|].
  rewrite E, pop_rev_cons. cbn [tl]. apply rev_involutive.
Qed.

End Loop.

Section LoopLog.

Lemma evaluated_undefined (tokens : list string) :
  evaluated VUndefined tokens = [].
Proof. destruct tokens; reflexivity. Qed.

Lemma getPointedValue_loop_log_spec (v : value) (tokensList : list string) :
  getPointedValue_loop_log v tokensList
  = (evaluate v (rev tokensList), evaluated v (rev tokensList)).
Proof.
  funelim (getPointedValue_loop_log v tokensList);
    repeat match goal with
      | H : exist _ _ _ = _ |- _ => clear H
      | H : sigmaI _ _ _ = _ |- _ => clear H
      | H : isUndefined _ = true |- _ => apply isUndefined_true in H; subst
      | H : pop _ = (None, _) |- _ => apply pop_None in H; subst
      | H : pop _ = (Some _, _) |- _ => apply pop_Some in H; rewrite H
      end.
  - now rewrite evaluate_undefined, evaluated_undefined.
  - reflexivity.
  - rewrite evaluate_cons. cbn [evaluated].
    repeat match goal with
      | H : isUndefined _ = false |- _ => rewrite H
      | H : getValue _ _ = _ |- _ => rewrite H
      | H : getPointedValue_loop_log _ _ = _ |- _ => rewrite H
      end.
    reflexivity.
  - rewrite evaluate_cons. cbn [evaluated].
    repeat match goal with
      | H : isUndefined _ = false |- _ => rewrite H
      | H : getValue _ _ = _ |- _ => rewrite H
      end.
    reflexivity.
Qed.

(** Once the fold over a prefix of the tokens is at "absent", the loop
    has handed to [getValue] tokens of that prefix only. *)
Lemma evaluated_prefix (v : value) (pre post : list string) :
  evaluate v pre = Return VUndefined ->
  exists unread, pre = (evaluated v (pre ++ post) ++ unread)%list.
Proof.
  revert v. induction pre as [|t ts IH]; intros v H.
  - cbn in H. injection H as ->. exists []. now rewrite evaluated_undefined.
  - cbn [app evaluated]. destruct (isUndefined v); [now exists (t :: ts)|].
    rewrite evaluate_cons in H.
    destruct (getValue v t) as [v'|e]; [|discriminate].
    destruct (IH v' H) as [unread E]. exists unread. cbn [app]. congruence.
Qed.

End LoopLog.

Section Resolution_theorems.

Variable JSON_parse : string -> option value.

Lemma getPointedValue_evaluate (target pointer document : value) :
  isString target = true ->
  isValidJSONPointer pointer = true ->
  JSON_parse (string_data target) = Some document ->
  getPointedValue JSON_parse target pointer
  = evaluate document (tokens_of_pointer (string_data pointer)).
Proof.
  intros Hs Hp Hd. unfold getPointedValue. rewrite Hs, Hp, Hd. cbn [negb].
  now rewrite getPointedValue_loop_evaluate, rev_parsePointer.
Qed.

End Resolution_theorems.

(** C3: for a document text that parses and a valid pointer,
    [getPointedValue] is the left fold of [getValue] over the tokens of
    the pointer in root-to-leaf order, starting from the parsed document,
    although [parsePointer] hands the loop a reversed list; for the empty
    pointer the result is the parsed document itself. *)
Theorem getPointedValue_is_fold
    (JSON_parse : string -> option value) (target pointer document : value) :
  isString target = true ->
  isValidJSONPointer pointer = true ->
  JSON_parse (string_data target) = Some document ->
  getPointedValue JSON_parse target pointer
  = evaluate document (tokens_of_pointer (string_data pointer))
  /\ rev (parsePointer pointer) = tokens_of_pointer (string_data pointer)
  /\ getPointedValue JSON_parse target (VString EmptyString) = Return document.
Proof.
  intros Hs Hp Hd. split; [|split].
  - now apply getPointedValue_evaluate.
  - apply rev_parsePointer.
  - now rewrite (getPointedValue_evaluate JSON_parse target (VString EmptyString) document).
Qed.

(** On the document [{"a":{"b":[1,2,3]}}] the pointer [/a/b/1] is resolved
    by looking up [a], then [b], then the index [1], which yields [2]. *)
Lemma getPointedValue_is_fold_witness :
  (isString (VString (JSON.text "{'a':{'b':[1,2,3]}}")) = true
   /\ isValidJSONPointer (VString "/a/b/1") = true
   /\ JSON.parse (JSON.text "{'a':{'b':[1,2,3]}}")
      = Some (VObject [("a", VObject [("b", VArray [VNumber (number_of_nat 1);
                                                     VNumber (number_of_nat 2);
                                                     VNumber (number_of_nat 3)])])]))
  /\ (getPointedValue JSON.parse (VString (JSON.text "{'a':{'b':[1,2,3]}}"))
                      (VString "/a/b/1")
      = evaluate (VObject [("a", VObject [("b", VArray [VNumber (number_of_nat 1);
                                                         VNumber (number_of_nat 2);
                                                         VNumber (number_of_nat 3)])])])
                 ["a"; "b"; "1"])
  /\ evaluate (VObject [("a", VObject [("b", VArray [VNumber (number_of_nat 1);
                                                      VNumber (number_of_nat 2);
                                                      VNumber (number_of_nat 3)])])])
              ["a"; "b"; "1"]
     = Return (VNumber (number_of_nat 2)).
Proof.
  split; [repeat split; reflexivity|]. split; [|reflexivity].
  apply (getPointedValue_is_fold JSON.parse
           (VString (JSON.text "{'a':{'b':[1,2,3]}}")) (VString "/a/b/1"));
    reflexivity.
Defined.

(** C9: resolution short-circuits on absence.  When the fold over a
    prefix of the tokens is at "absent", the result is "absent" whatever
    tokens follow, and the loop has handed to [getValue] tokens of that
    prefix only: the log of its calls is an initial part of the prefix.
    The logged loop returns what the loop returns. *)
Theorem resolution_short_circuits
    (JSON_parse : string -> option value) (target pointer document : value)
    (pre post : list string) :
  isString target = true ->
  isValidJSONPointer pointer = true ->
  JSON_parse (string_data target) = Some document ->
  tokens_of_pointer (string_data pointer) = (pre ++ post)%list ->
  evaluate document pre = Return VUndefined ->
  getPointedValue JSON_parse target pointer = Return VUndefined
  /\ fst (getPointedValue_loop_log document (parsePointer pointer))
     = getPointedValue JSON_parse target pointer
  /\ exists unread,
       pre = (snd (getPointedValue_loop_log document (parsePointer pointer))
              ++ unread)%list.
Proof.
  intros Hs Hp Hd Ht He.
  rewrite (getPointedValue_evaluate JSON_parse target pointer document Hs Hp Hd).
  rewrite getPointedValue_loop_log_spec, rev_parsePointer, Ht. cbn [fst snd].
  split; [|split].
  - rewrite evaluate_app, He. cbn [bind]. apply evaluate_undefined.
  - reflexivity.
  - now apply evaluated_prefix.
Qed.

(** [get('{"a":1}', "/b/-")] is "absent": the step for [b] yields
    "absent", and [-], which an array context rejects, is not
    evaluated. *)
Lemma resolution_short_circuits_witness :
  (isString (VString (JSON.text "{'a':1}")) = true
   /\ isValidJSONPointer (VString "/b/-") = true
   /\ JSON.parse (JSON.text "{'a':1}") = Some (VObject [("a", VNumber (number_of_nat 1))])
   /\ tokens_of_pointer "/b/-" = (["b"] ++ ["-"])%list
   /\ evaluate (VObject [("a", VNumber (number_of_nat 1))]) ["b"] = Return VUndefined)
  /\ getPointedValue JSON.parse (VString (JSON.text "{'a':1}")) (VString "/b/-")
     = Return VUndefined
  /\ snd (getPointedValue_loop_log (VObject [("a", VNumber (number_of_nat 1))])
                                   (parsePointer (VString "/b/-")))
     = ["b"].
Proof.
  split; [repeat split; reflexivity|]. split; [|reflexivity].
  apply (resolution_short_circuits JSON.parse
           (VString (JSON.text "{'a':1}")) (VString "/b/-")
           (VObject [("a", VNumber (number_of_nat 1))]) ["b"] ["-"]);
    reflexivity.
Defined.

(* ===================================================================== *)
(** * Failures *)
(* ===================================================================== *)

Section Failures.

Lemma getValue_failure (context : value) (token : string) (e : error) :
  getValue context token = Throw e -> step_failure e /\ isArray context = true.
Proof.
  unfold getValue, step_failure.
  destruct (isArray context); [|destruct (isObject context); discriminate].
  destruct (String.eqb "-" _); [intros [= <-]; auto|].
  destruct (negb (isNumber _)); [intros [= <-]; auto|].
  destruct (has_leading_zero _); [intros [= <-]; auto|discriminate].
Qed.

Lemma evaluate_failure (document : value) (tokens : list string) (e : error) :
  evaluate document tokens = Throw e -> step_failure e.
Proof.
  revert document. induction tokens as [|t ts IH]; intros v H; [discriminate|].
  rewrite evaluate_cons in H.
  destruct (getValue v t) as [v'|e'] eqn:E; cbn [bind] in H.
  - now apply (IH v').
  - injection H as ->. now apply getValue_failure in E.
Qed.

Lemma step_failure_not_input (e : error) :
  step_failure e ->
  e <> getError ErrorMessage.INVALID_DOCUMENT_TYPE
  /\ e <> getError ErrorMessage.INVALID_POINTER
  /\ e <> getError ErrorMessage.INVALID_DOCUMENT.
Proof.
  intros [-> | [-> | ->]]; repeat split; intro H; vm_compute in H; discriminate H.
Qed.

End Failures.

(** C6: [getPointedValue] fails with "JSON document must be a string"
    exactly when the document argument is no string; with "Pointer is not
    valid" exactly when, the document being a string, the pointer fails
    validation; with "JSON document is not valid" exactly when, both
    checks passed, the text does not parse.  The checks come in that
    order: while one of the first two fails, the outcome is the same for
    every decoder, so none is consulted. *)
Theorem getPointedValue_input_failures
    (JSON_parse : string -> option value) (target pointer : value) :
  (getPointedValue JSON_parse target pointer
   = Throw (getError ErrorMessage.INVALID_DOCUMENT_TYPE)
   <-> isString target = false)
  /\ (getPointedValue JSON_parse target pointer
      = Throw (getError ErrorMessage.INVALID_POINTER)
      <-> isString target = true /\ isValidJSONPointer pointer = false)
  /\ (getPointedValue JSON_parse target pointer
      = Throw (getError ErrorMessage.INVALID_DOCUMENT)
      <-> isString target = true /\ isValidJSONPointer pointer = true
          /\ JSON_parse (string_data target) = None)
  /\ (forall JSON_parse' : string -> option value,
        isString target = false \/ isValidJSONPointer pointer = false ->
        getPointedValue JSON_parse' target pointer
        = getPointedValue JSON_parse target pointer).
Proof.
  unfold getPointedValue.
  destruct (isString target) eqn:Hs; cbn [negb];
    [destruct (isValidJSONPointer pointer) eqn:Hp; cbn [negb];
     [destruct (JSON_parse (string_data target)) as [document|] eqn:Hd;
      [rewrite getPointedValue_loop_evaluate|]|]|].
  all: repeat split; intros;
    repeat match goal with
      | H : _ /\ _ |- _ => destruct H
      | H : _ \/ _ |- _ => destruct H
      | H : evaluate _ _ = Throw _ |- _ =>
          apply evaluate_failure, step_failure_not_input in H
      end;
    try reflexivity; try discriminate; try tauto;
    match goal with
    | H : Throw _ = Throw _ |- _ => vm_compute in H; discriminate H
    end.
Qed.

(** [get(42, p)] fails on the type of the document also when [p] is not
    valid; a text that does not parse fails on the pointer first, and as
    a document when the pointer is valid. *)
Lemma getPointedValue_input_failures_witness :
  getPointedValue JSON.parse (VNumber (number_of_nat 42)) (VString "no-leading-slash")
  = Throw (getError ErrorMessage.INVALID_DOCUMENT_TYPE)
  /\ getPointedValue JSON.parse (VString "not json") (VString "no-leading-slash")
     = Throw (getError ErrorMessage.INVALID_POINTER)
  /\ getPointedValue JSON.parse (VString "not json") (VString "/a")
     = Throw (getError ErrorMessage.INVALID_DOCUMENT).
Proof.
  split; [|split].
  - apply (proj1 (getPointedValue_input_failures JSON.parse _ _)). reflexivity.
  - apply (proj1 (proj2 (getPointedValue_input_failures JSON.parse _ _))).
    split; reflexivity.
  - apply (proj1 (proj2 (proj2 (getPointedValue_input_failures JSON.parse _ _)))).
    repeat split; reflexivity.
Defined.

(* ===================================================================== *)
(** * The array context *)
(* ===================================================================== *)

Section ArrayContext.

Lemma isArray_not_object_branch (context : value) (token : string) :
  isArray context = false -> exists v, getValue context token = Return v.
Proof.
  intro H. unfold getValue. rewrite H.
  destruct (isObject context); eauto.
Qed.

(** A numeric text is none of the names that are not numeric. *)
Lemma numeric_differs (u name : string) :
  isNumber u = true -> isNumber name = false -> String.eqb u name = false.
Proof.
  intros Hu Hn. apply String.eqb_neq. intros ->. congruence.
Qed.

Lemma mem_numeric (u : string) (names : list string) :
  isNumber u = true ->
  forallb (fun k => negb (isNumber k)) names = true ->
  mem u names = false.
Proof.
  intros Hu. induction names as [|k ks IH]; [reflexivity|].
  cbn [forallb mem existsb]. intros H.
  apply andb_true_iff in H as [Hk Hks]. apply negb_true_iff in Hk.
  rewrite (numeric_differs u k Hu Hk). now apply IH.
Qed.

Lemma prototype_property_numeric (owner ctor u : string) (methods : list string) :
  isNumber u = true ->
  forallb (fun k => negb (isNumber k)) methods = true ->
  prototype_property owner ctor methods u = None.
Proof.
  intros Hu Hm. unfold prototype_property.
  rewrite (numeric_differs u "constructor" Hu eq_refl).
  now rewrite (mem_numeric u methods Hu Hm).
Qed.

Lemma length_property_numeric (n : nat) (u : string) :
  isNumber u = true -> length_property n u = None.
Proof.
  intro Hu. unfold length_property.
  now rewrite (numeric_differs u "length" Hu eq_refl).
Qed.

(** Read with a numeric key, an array gives the element that the key
    names or nothing: no property of the prototypes has a numeric
    name. *)
Lemma Get_array_numeric (elements : list value) (u : string) :
  isNumber u = true ->
  Get (VArray elements) u
  = match indexed elements u with
    | Some v => v
    | None => VUndefined
    end.
Proof.
  intro Hu. unfold Get, prototype_chain.
  cbn [GetPrototypeOf find_property GetOwnProperty].
  destruct (indexed elements u) as [v|]; [reflexivity|].
  cbn [option_map or_else].
  rewrite !length_property_numeric by assumption.
  rewrite !prototype_property_numeric by (assumption || reflexivity).
  rewrite (numeric_differs u "__proto__" Hu eq_refl).
  reflexivity.
Qed.

Lemma Get_ArrayPrototype_numeric (u : string) :
  isNumber u = true -> Get (VIntrinsic ArrayPrototype) u = VUndefined.
Proof.
  intro Hu. unfold Get, prototype_chain.
  cbn [GetPrototypeOf find_property GetOwnProperty].
  rewrite !length_property_numeric by assumption.
  rewrite !prototype_property_numeric by (assumption || reflexivity).
  rewrite (numeric_differs u "__proto__" Hu eq_refl).
  reflexivity.
Qed.

(** The key of an element is the decimal text of its index. *)
Lemma indexed_Some {A : Type} (l : list A) (u : string) (x : A) :
  indexed l u = Some x ->
  exists i, (i < List.length l)%nat /\ ToString_index (N.of_nat i) = u
            /\ nth_error l i = Some x.
Proof.
  unfold indexed, array_index.
  destruct (NilZero.uint_of_string u) as [d|]; [|discriminate].
  cbv zeta.
  destruct (String.eqb (ToString_index (N.of_uint d)) u) eqn:E; [|discriminate].
  destruct (N.of_uint d <? N.of_nat (List.length l))%N eqn:L; [|discriminate].
  intro H. exists (N.to_nat (N.of_uint d)).
  apply N.ltb_lt in L. apply String.eqb_eq in E.
  rewrite N2Nat.id. repeat split; auto. lia.
Qed.

Lemma indexed_zero {A : Type} (l : list A) : indexed l "0" = hd_error l.
Proof. destruct l; reflexivity. Qed.

Lemma isArray_cases (context : value) :
  isArray context = true ->
  (exists elements, context = VArray elements)
  \/ context = VIntrinsic ArrayPrototype.
Proof.
  destruct context as [| | | | |l| | |[]]; try discriminate; eauto.
Qed.

End ArrayContext.

(** C7: in an array context a token that is [-] once unescaped fails with
    "Implementation does not support "-" token for arrays"; the numeric
    check, which [-] would not pass, comes after it, and the check of a
    leading zero does not concern it.  In a context that is no array the
    token raises no failure. *)
Theorem hyphen_in_array_context (context : value) (token : string) :
  unescapeReferenceToken token = "-" ->
  (isArray context = true ->
   getValue context token
   = Throw (getError ErrorMessage.HYPHEN_IS_NOT_SUPPORTED_IN_ARRAY_CONTEXT))
  /\ (isArray context = false -> exists v, getValue context token = Return v)
  /\ isNumber (unescapeReferenceToken token) = false
  /\ has_leading_zero (unescapeReferenceToken token) = false.
Proof.
  intro Hu. split; [|split; [|rewrite Hu; split; reflexivity]].
  - intro Ha. unfold getValue. now rewrite Ha, Hu.
  - apply isArray_not_object_branch.
Qed.

(** [-] fails on the array [[1,2,3]], and reads the key [-] of an object. *)
Lemma hyphen_in_array_context_witness :
  unescapeReferenceToken "-" = "-"
  /\ getValue (VArray [VNumber (number_of_nat 1); VNumber (number_of_nat 2);
                       VNumber (number_of_nat 3)]) "-"
     = Throw (getError ErrorMessage.HYPHEN_IS_NOT_SUPPORTED_IN_ARRAY_CONTEXT)
  /\ exists v, getValue (VObject [("-", VNull)]) "-" = Return v.
Proof.
  split; [reflexivity|]. split.
  - apply (proj1 (hyphen_in_array_context _ "-" eq_refl)). reflexivity.
  - apply (proj1 (proj2 (hyphen_in_array_context _ "-" eq_refl))). reflexivity.
Defined.

(** C8: in an array context a numeric token longer than one character
    that starts with [0] fails with "Token with leading zero cannot be
    used in array context", as [01] does; the token [0] is accepted and
    gives the first element of the array, "absent" when the array is
    empty. *)
Theorem leading_zero_in_array_context :
  (forall (context : value) (token : string),
      isArray context = true ->
      isNumber (unescapeReferenceToken token) = true ->
      (1 < String.length (unescapeReferenceToken token))%nat ->
      JSString.first_char (unescapeReferenceToken token) = Some "0"%char ->
      getValue context token
      = Throw (getError ErrorMessage.TOKEN_WITH_LEADING_ZERO_IN_ARRAY_CONTEXT))
  /\ (forall elements : list value,
         getValue (VArray elements) "0"
         = Return (match elements with
                   | [] => VUndefined
                   | first :: _ => first
                   end)).
Proof.
  split.
  - intros context token Ha Hn Hl Hz. unfold getValue. rewrite Ha, Hn. cbn [negb].
    destruct (String.eqb "-" _) eqn:E.
    + apply String.eqb_eq in E. rewrite <- E in Hz. discriminate.
    + unfold has_leading_zero. rewrite Hz.
      apply Nat.ltb_lt in Hl. now rewrite Hl.
  - intro elements. unfold getValue.
    change (unescapeReferenceToken "0") with "0".
    cbn [isArray Array_isArray]. 
    change (String.eqb "-" "0") with false. change (isNumber "0") with true.
    change (has_leading_zero "0") with false. cbn [negb].
    rewrite Get_array_numeric by reflexivity. rewrite indexed_zero.
    destruct elements; reflexivity.
Qed.

(** [01] fails on the array [[1,2,3]]. *)
Lemma leading_zero_in_array_context_witness :
  (isArray (VArray [VNumber (number_of_nat 1); VNumber (number_of_nat 2);
                    VNumber (number_of_nat 3)]) = true
   /\ isNumber (unescapeReferenceToken "01") = true
   /\ (1 < String.length (unescapeReferenceToken "01"))%nat
   /\ JSString.first_char (unescapeReferenceToken "01") = Some "0"%char)
  /\ getValue (VArray [VNumber (number_of_nat 1); VNumber (number_of_nat 2);
                       VNumber (number_of_nat 3)]) "01"
     = Throw (getError ErrorMessage.TOKEN_WITH_LEADING_ZERO_IN_ARRAY_CONTEXT).
Proof.
  split; [repeat split; cbn; lia|].
  apply (proj1 leading_zero_in_array_context); try reflexivity. cbn; lia.
Defined.

(** C10: in an array context, a token that passes the numeric check, is
    not [-] and has no leading zero, but is not the decimal text of an
    index within the bounds of the array, gives "absent": the array is
    read with the text of the token as the key, and no failure is
    raised. *)
Theorem non_index_numeric_token_is_absent (context : value) (token : string) :
  isArray context = true ->
  unescapeReferenceToken token <> "-" ->
  isNumber (unescapeReferenceToken token) = true ->
  has_leading_zero (unescapeReferenceToken token) = false ->
  (forall (elements : list value) (i : nat),
      context = VArray elements -> (i < List.length elements)%nat ->
      ToString_index (N.of_nat i) <> unescapeReferenceToken token) ->
  getValue context token = Return VUndefined.
Proof.
  intros Ha Hh Hn Hz Hi. unfold getValue. rewrite Ha, Hn, Hz. cbn [negb].
  apply String.eqb_neq in Hh. rewrite String.eqb_sym in Hh. rewrite Hh.
  f_equal.
  destruct (isArray_cases context Ha) as [[elements ->] | ->].
  - rewrite Get_array_numeric by assumption.
    destruct (indexed elements _) as [v|] eqn:E; [|reflexivity].
    apply indexed_Some in E as (i & Hlt & Hkey & _).
    exfalso. exact (Hi elements i eq_refl Hlt Hkey).
  - now apply Get_ArrayPrototype_numeric.
Qed.

(** On the array [[1,2,3]] the tokens [-1], [1.5], [ 2] and [1e2] are
    numeric and name no element: each gives "absent". *)
Lemma non_index_numeric_token_is_absent_witness :
  getValue (VArray [VNumber (number_of_nat 1); VNumber (number_of_nat 2);
                    VNumber (number_of_nat 3)]) "-1" = Return VUndefined
  /\ getValue (VArray [VNumber (number_of_nat 1); VNumber (number_of_nat 2);
                       VNumber (number_of_nat 3)]) "1.5" = Return VUndefined
  /\ getValue (VArray [VNumber (number_of_nat 1); VNumber (number_of_nat 2);
                       VNumber (number_of_nat 3)]) " 2" = Return VUndefined
  /\ getValue (VArray [VNumber (number_of_nat 1); VNumber (number_of_nat 2);
                       VNumber (number_of_nat 3)]) "1e2" = Return VUndefined.
Proof.
  split; [|split; [|split]];
    (apply non_index_numeric_token_is_absent;
     [ reflexivity | discriminate | reflexivity | reflexivity
     | intros elements i [= <-] Hi;
       destruct i as [|[|[|i]]]; [discriminate ..| cbn in Hi; lia] ]).
Defined.

(* ===================================================================== *)
(** * The numeric check *)
(* ===================================================================== *)

Section NumericCheck.

Import StringToNumber.

Lemma skip_all (p : ascii -> bool) (s : string) :
  all p s = true -> skip p s = EmptyString.
Proof.
  induction s as [|c s IH]; [reflexivity|].
  cbn [all skip]. intro H. apply andb_true_iff in H as [Hc Hs].
  rewrite Hc. now apply IH.
Qed.

Lemma digit_not_white_space (c : ascii) :
  is_digit c = true -> is_white_space c = false.
Proof.
  destruct c as [[] [] [] [] [] [] [] []]; intro H;
    first [reflexivity | discriminate H].
Qed.

Lemma digit_not_sign (c : ascii) : is_digit c = true -> is_sign c = false.
Proof.
  intro H. unfold is_sign.
  destruct (Ascii.eqb c "+") eqn:E1; [apply Ascii.eqb_eq in E1; subst; discriminate|].
  destruct (Ascii.eqb c "-") eqn:E2; [apply Ascii.eqb_eq in E2; subst; discriminate|].
  reflexivity.
Qed.

Lemma digit_not_I (c : ascii) : is_digit c = true -> Ascii.eqb "I" c = false.
Proof.
  intro H. destruct (Ascii.eqb "I" c) eqn:E; [|reflexivity].
  apply Ascii.eqb_eq in E. subst. discriminate.
Qed.

(** Digits alone are a decimal literal. *)
Lemma digits_StrUnsignedDecimalLiteral (s : string) :
  starts_with is_digit s = true -> all is_digit s = true ->
  StrUnsignedDecimalLiteral s = Some EmptyString.
Proof.
  intros Hs Ha. unfold StrUnsignedDecimalLiteral.
  destruct s as [|c s]; [discriminate|]. cbn [starts_with] in Hs.
  rewrite prefix_String, (digit_not_I c Hs). cbn [andb].
  rewrite (skip_all _ _ Ha). cbn [starts_with]. now rewrite Hs.
Qed.

(** Every base-10 integer passes the numeric check. *)
Lemma base10_integer_isNumber (s : string) :
  base10_integer s = true -> isNumber s = true.
Proof.
  unfold base10_integer, isNumber, Number_isNaN. rewrite negb_involutive.
  intro H. apply andb_true_iff in H as [Hs Ha].
  unfold StringNumericLiteral. cbv zeta.
  assert (Hskip : skip is_white_space s = s).
  { destruct s as [|c s]; [reflexivity|]. cbn [skip].
    destruct (Ascii.eqb c "-") eqn:E.
    - apply Ascii.eqb_eq in E. now subst.
    - assert (Hc : is_digit c = true).
      { destruct (ascii_dec c "-") as [->|Hne]; [discriminate|].
        destruct c as [[] [] [] [] [] [] [] []]; try exact Hs; congruence. }
      now rewrite (digit_not_white_space c Hc). }
  rewrite Hskip.
  assert (Hd : StrDecimalLiteral s = Some EmptyString).
  { unfold StrDecimalLiteral.
    destruct s as [|c s]; [discriminate|]. cbn [sign_opt].
    destruct (ascii_dec c "-") as [->|Hne].
    - cbn [is_sign Ascii.eqb Bool.eqb orb andb].
      now apply digits_StrUnsignedDecimalLiteral.
    - assert (Hc : is_digit c = true /\ all is_digit (String c s) = true).
      { destruct c as [[] [] [] [] [] [] [] []]; try (split; [exact Hs|exact Ha]);
          congruence. }
      destruct Hc as [Hc Hall]. rewrite (digit_not_sign c Hc).
      now apply digits_StrUnsignedDecimalLiteral. }
  rewrite Hd. cbn [to_the_end all]. apply orb_true_r.
Qed.

(** A numeric token without a leading zero that names no element of
    the array gives "absent". *)
Lemma getValue_array_no_element (elements : list value) (token : string) :
  unescapeReferenceToken token <> "-" ->
  isNumber (unescapeReferenceToken token) = true ->
  has_leading_zero (unescapeReferenceToken token) = false ->
  indexed elements (unescapeReferenceToken token) = None ->
  getValue (VArray elements) token = Return VUndefined.
Proof.
  intros Hh Hn Hz Hi. unfold getValue. cbn [isArray Array_isArray].
  apply String.eqb_neq in Hh. rewrite String.eqb_sym in Hh.
  rewrite Hh, Hn, Hz. cbn [negb].
  now rewrite Get_array_numeric, Hi.
Qed.

End NumericCheck.

(** C1, as amended: in an array context, for a token other than [-]
    once unescaped, the step fails with "Non-number tokens cannot be used
    in array context" exactly when [Number] of the token is NaN.  Every
    base-10 integer passes this check, and so does every other numeric
    literal: the failure implies that the token is no base-10 integer,
    and not the reverse.  The tokens [1.5], [ 2] and [1e2] pass the check
    and give "absent" on every array. *)
Theorem non_number_token_in_array_context :
  (forall (context : value) (token : string),
      isArray context = true ->
      unescapeReferenceToken token <> "-" ->
      (getValue context token
       = Throw (getError ErrorMessage.NON_NUMBER_TOKEN_IN_ARRAY_CONTEXT)
       <-> isNumber (unescapeReferenceToken token) = false)
      /\ (getValue context token
          = Throw (getError ErrorMessage.NON_NUMBER_TOKEN_IN_ARRAY_CONTEXT)
          -> base10_integer (unescapeReferenceToken token) = false))
  /\ (forall elements : list value,
         getValue (VArray elements) "1.5" = Return VUndefined
         /\ getValue (VArray elements) " 2" = Return VUndefined
         /\ getValue (VArray elements) "1e2" = Return VUndefined).
Proof.
  split.
  - intros context token Ha Hh.
    assert (Hiff : getValue context token
                   = Throw (getError ErrorMessage.NON_NUMBER_TOKEN_IN_ARRAY_CONTEXT)
                   <-> isNumber (unescapeReferenceToken token) = false).
    { unfold getValue. rewrite Ha.
      apply String.eqb_neq in Hh. rewrite String.eqb_sym in Hh. rewrite Hh.
      destruct (isNumber (unescapeReferenceToken token)); cbn [negb].
      - destruct (has_leading_zero _); split; intro H; try discriminate;
          vm_compute in H; discriminate H.
      - split; reflexivity. }
    split; [exact Hiff|].
    intro H. apply Hiff in H.
    destruct (base10_integer (unescapeReferenceToken token)) eqn:E; [|reflexivity].
    apply base10_integer_isNumber in E. congruence.
  - intro elements.
    repeat split; apply getValue_array_no_element;
      first [discriminate | reflexivity].
Qed.

(** On the array [[1,2,3]], [x] is no number and fails; [1.5], [ 2] and
    [1e2] are numbers and do not. *)
Lemma non_number_token_in_array_context_witness :
  (isArray (VArray [VNumber (number_of_nat 1); VNumber (number_of_nat 2);
                    VNumber (number_of_nat 3)]) = true
   /\ unescapeReferenceToken "x" <> "-")
  /\ getValue (VArray [VNumber (number_of_nat 1); VNumber (number_of_nat 2);
                       VNumber (number_of_nat 3)]) "x"
     = Throw (getError ErrorMessage.NON_NUMBER_TOKEN_IN_ARRAY_CONTEXT).
Proof.
  split; [split; [reflexivity|discriminate]|].
  apply (proj1 (proj1 non_number_token_in_array_context
                  (VArray [VNumber (number_of_nat 1); VNumber (number_of_nat 2);
                           VNumber (number_of_nat 3)]) "x" eq_refl
                  ltac:(discriminate))).
  reflexivity.
Defined.

(** C1 as the specification states it fails: [1.5], [ 2] and [1e2] are no
    base-10 integers, and in an array context they give "absent", not a
    failure. *)
Lemma non_integer_tokens_raise_no_failure :
  ~ (forall (context : value) (token : string),
        isArray context = true ->
        unescapeReferenceToken token <> "-" ->
        (getValue context token
         = Throw (getError ErrorMessage.NON_NUMBER_TOKEN_IN_ARRAY_CONTEXT)
         <-> base10_integer (unescapeReferenceToken token) = false)).
Proof.
  intro H.
  destruct (H (VArray [VNumber (number_of_nat 1)]) "1.5" eq_refl ltac:(discriminate))
    as [_ Hback].
  specialize (Hback eq_refl). vm_compute in Hback. discriminate Hback.
Qed.

(* ===================================================================== *)
(** * The object context *)
(* ===================================================================== *)

Section ObjectContext.

(** Three objects are a whole chain: the third prototype is [null]. *)
Lemma prototype_chain_complete (obj : value) :
  GetPrototypeOf (GetPrototypeOf (GetPrototypeOf obj)) = VNull.
Proof. destruct obj as [| | | | | | | |[]]; reflexivity. Qed.

(** A key of the object itself is read from the object. *)
Lemma getValue_object_own (properties : list (string * value))
    (token : string) (v : value) :
  assoc (unescapeReferenceToken token) properties = Some v ->
  getValue (VObject properties) token = Return v.
Proof.
  intro H. unfold getValue, Get, prototype_chain.
  cbn [isArray Array_isArray isObject typeof String.eqb Ascii.eqb Bool.eqb
       null_strict_equals negb andb GetPrototypeOf find_property GetOwnProperty].
  now rewrite H.
Qed.

(** A key that neither the object nor [Object.prototype] has gives
    "absent". *)
Lemma getValue_object_absent (properties : list (string * value))
    (token : string) :
  assoc (unescapeReferenceToken token) properties = None ->
  GetOwnProperty (VIntrinsic ObjectPrototype) (unescapeReferenceToken token) = None ->
  getValue (VObject properties) token = Return VUndefined.
Proof.
  intros H Hp. unfold getValue, Get, prototype_chain.
  cbn [isArray Array_isArray isObject typeof String.eqb Ascii.eqb Bool.eqb
       null_strict_equals negb andb GetPrototypeOf find_property].
  cbn [GetOwnProperty] in *. rewrite H. cbn [option_map or_else].
  now rewrite Hp.
Qed.

End ObjectContext.

(** C5 (a defect of the code): [context[token]] reads through the
    prototype chain, so a token that names no key of the object but a
    property of [Object.prototype] does not give "absent".  On the parsed
    document [{"a":1}] the tokens [toString] and [constructor] give
    built-in functions, and [get('{"a":1}', "/toString")] returns one. *)
Theorem inherited_property_is_not_absent :
  JSON.parse (JSON.text "{'a':1}") = Some (VObject [("a", VNumber (number_of_nat 1))])
  /\ assoc "toString" [("a", VNumber (number_of_nat 1))] = None
  /\ assoc "constructor" [("a", VNumber (number_of_nat 1))] = None
  /\ getValue (VObject [("a", VNumber (number_of_nat 1))]) "toString"
     = Return (VIntrinsic (BuiltinFunction "Object.prototype.toString"))
  /\ getValue (VObject [("a", VNumber (number_of_nat 1))]) "constructor"
     = Return (VIntrinsic (BuiltinFunction "Object"))
  /\ getPointedValue JSON.parse (VString (JSON.text "{'a':1}")) (VString "/toString")
     = Return (VIntrinsic (BuiltinFunction "Object.prototype.toString")).
Proof. repeat split; reflexivity. Qed.

(** The keys [x~y] and [p/q] of the document [{"x~y": 5, "p/q": 6}] are
    reached by the tokens [x~0y] and [p~1q]. *)
Lemma getValue_object_own_witness :
  (assoc (unescapeReferenceToken "x~0y")
         [("x~y", VNumber (number_of_nat 5)); ("p/q", VNumber (number_of_nat 6))]
   = Some (VNumber (number_of_nat 5))
   /\ assoc (unescapeReferenceToken "p~1q")
            [("x~y", VNumber (number_of_nat 5)); ("p/q", VNumber (number_of_nat 6))]
      = Some (VNumber (number_of_nat 6)))
  /\ getValue (VObject [("x~y", VNumber (number_of_nat 5));
                        ("p/q", VNumber (number_of_nat 6))]) "x~0y"
     = Return (VNumber (number_of_nat 5))
  /\ getValue (VObject [("x~y", VNumber (number_of_nat 5));
                        ("p/q", VNumber (number_of_nat 6))]) "p~1q"
     = Return (VNumber (number_of_nat 6)).
Proof.
  split; [split; reflexivity|].
  split; apply getValue_object_own; reflexivity.
Defined.

(* ===================================================================== *)
(** * The examples of the specification *)
(* ===================================================================== *)

(** The listed results of [get] on the example document and on the
    inputs that are no document; [~01] decodes to [~1], not to a slash. *)
Lemma specification_examples :
  getPointedValue JSON.parse example_document (VString "/a/b/1")
  = Return (VNumber (number_of_nat 2))
  /\ getPointedValue JSON.parse example_document (VString "/a/b/-")
     = Throw (getError ErrorMessage.HYPHEN_IS_NOT_SUPPORTED_IN_ARRAY_CONTEXT)
  /\ getPointedValue JSON.parse example_document (VString "/a/b/01")
     = Throw (getError ErrorMessage.TOKEN_WITH_LEADING_ZERO_IN_ARRAY_CONTEXT)
  /\ getPointedValue JSON.parse example_document (VString "/a/b/x")
     = Throw (getError ErrorMessage.NON_NUMBER_TOKEN_IN_ARRAY_CONTEXT)
  /\ getPointedValue JSON.parse example_document (VString "/a/c")
     = Return VUndefined
  /\ getPointedValue JSON.parse example_document (VString "/a/b/10")
     = Return VUndefined
  /\ getPointedValue JSON.parse (VString (JSON.text "{'x~y': 5, 'p/q': 6}"))
                     (VString "/x~0y")
     = Return (VNumber (number_of_nat 5))
  /\ getPointedValue JSON.parse (VString (JSON.text "{'x~y': 5, 'p/q': 6}"))
                     (VString "/p~1q")
     = Return (VNumber (number_of_nat 6))
  /\ getPointedValue JSON.parse (VNumber (number_of_nat 42)) (VString "/a")
     = Throw (getError ErrorMessage.INVALID_DOCUMENT_TYPE)
  /\ getPointedValue JSON.parse (VString "not json") (VString "/a")
     = Throw (getError ErrorMessage.INVALID_DOCUMENT)
  /\ unescapeReferenceToken "~01" = "~1".
Proof. repeat (split; [vm_compute; reflexivity|]). vm_compute; reflexivity. Qed.

(* ===================================================================== *)
(** * The elements of an array *)
(* ===================================================================== *)

Section ArrayElements.

Import StringToNumber.

Lemma to_uint_normal (n : N) : Decimal.unorm (N.to_uint n) = N.to_uint n.
Proof.
  rewrite <- (DecimalN.Unsigned.of_to n) at 2.
  now rewrite DecimalN.Unsigned.to_of.
Qed.

Lemma to_uint_nonnil (n : N) : N.to_uint n <> Decimal.Nil.
Proof. rewrite <- to_uint_normal. apply DecimalFacts.unorm_nonnil. Qed.

(** The decimal text of an index names that index. *)
Lemma array_index_ToString (n : N) : array_index (ToString_index n) = Some n.
Proof.
  unfold array_index, ToString_index.
  rewrite (NilZero.usu _ (to_uint_nonnil n)). cbv zeta.
  now rewrite DecimalN.Unsigned.of_to, String.eqb_refl.
Qed.

Lemma indexed_ToString {A : Type} (l : list A) (i : nat) :
  indexed l (ToString_index (N.of_nat i)) = nth_error l i.
Proof.
  unfold indexed. rewrite array_index_ToString, Nat2N.id.
  destruct (N.of_nat i <? N.of_nat (List.length l))%N eqn:L; [reflexivity|].
  apply N.ltb_ge in L. symmetry. apply nth_error_None. lia.
Qed.

Lemma digits_string_of_uint (d : Decimal.uint) :
  all is_digit (NilEmpty.string_of_uint d) = true.
Proof. induction d; cbn [NilEmpty.string_of_uint all]; auto. Qed.

Lemma digits_ToString (n : N) :
  starts_with is_digit (ToString_index n) = true
  /\ all is_digit (ToString_index n) = true.
Proof.
  unfold ToString_index, NilZero.string_of_uint.
  pose proof (to_uint_nonnil n) as Hn.
  destruct (N.to_uint n) as [|d|d|d|d|d|d|d|d|d|d]; [congruence|..];
    (split; [reflexivity|apply (digits_string_of_uint (_ d))]).
Qed.

(** The text of an index has no leading zero: it is ["0"], or it starts
    with another digit. *)
Lemma ToString_no_leading_zero (n : N) :
  has_leading_zero (ToString_index n) = false.
Proof.
  unfold ToString_index, NilZero.string_of_uint.
  pose proof (to_uint_normal n) as Hn.
  destruct (N.to_uint n) as [|d|d|d|d|d|d|d|d|d|d]; try reflexivity;
    try (unfold has_leading_zero; cbn; apply andb_false_r).
  unfold Decimal.unorm in Hn. rewrite DecimalFacts.nzhead_D0 in Hn.
  destruct (Decimal.nzhead d) eqn:E;
    first [ now apply DecimalFacts.nzhead_nonzero in E
          | discriminate Hn
          | injection Hn as <-; reflexivity ].
Qed.

Lemma digit_not_tilde (c : ascii) : is_digit c = true -> c <> "~"%char.
Proof. intros H ->. discriminate H. Qed.

(** A text of digits holds no escape sequence. *)
Lemma unescape_digits (s : string) :
  all is_digit s = true -> unescapeReferenceToken s = s.
Proof.
  induction s as [|c s IH]; [reflexivity|].
  cbn [all]. intro H. apply andb_true_iff in H as [Hc Hs].
  rewrite (unescape_char c s (digit_not_tilde c Hc)). now rewrite IH.
Qed.

Lemma digits_base10_integer (s : string) :
  starts_with is_digit s = true -> all is_digit s = true ->
  base10_integer s = true.
Proof.
  intros Hs Ha. unfold base10_integer.
  destruct s as [|c s]; [discriminate|].
  destruct (ascii_dec c "-") as [->|Hne]; [discriminate|].
  assert (E : match String c s with
              | String "-"%char s' => s'
              | _ => String c s
              end = String c s).
  { destruct c as [[] [] [] [] [] [] [] []]; try reflexivity. congruence. }
  rewrite E. now rewrite Hs, Ha.
Qed.

End ArrayElements.

(* ===================================================================== *)
(** * Tokens and pointers *)
(* ===================================================================== *)

Section Tokens.

Import JSString.

Lemma append_empty_r (s : string) : s ++ EmptyString = s.
Proof. induction s as [|c s IH]; [reflexivity|]. cbn [append]. now rewrite IH. Qed.

Lemma split_slash_slash (s : string) :
  split "/" (String "/" s) = EmptyString :: split "/" s.
Proof.
  unfold split. cbn [String.eqb split_from].
  rewrite prefix_String, prefix_empty. cbn [Ascii.eqb Bool.eqb andb String.length Nat.sub].
  now destruct (split_from "/" 0 s).
Qed.

Lemma split_slash_other (c : ascii) (s : string) :
  c <> "/"%char ->
  split "/" (String c s)
  = String c (hd EmptyString (split "/" s)) :: tl (split "/" s).
Proof.
  intro Hc. unfold split. cbn [String.eqb split_from].
  rewrite prefix_String, prefix_empty, (eqb_neq_l _ _ Hc). cbn [andb].
  now destruct (split_from "/" 0 s).
Qed.

Lemma split_slash_nonempty (s : string) : split "/" s <> [].
Proof. unfold split. cbn [String.eqb]. now destruct (split_from "/" 0 s). Qed.

(** A pointer is its first segment followed by its tokens, each after a
    slash. *)
Lemma split_slash_join (s : string) :
  hd EmptyString (split "/" s) ++ pointer_of_tokens (tl (split "/" s)) = s.
Proof.
  induction s as [|c s IH]; [reflexivity|].
  destruct (ascii_dec c "/") as [->|Hc].
  - rewrite split_slash_slash. cbn [hd tl append].
    destruct (split "/" s) as [|h t] eqn:E; [now apply split_slash_nonempty in E|].
    cbn [pointer_of_tokens hd tl] in *. now rewrite IH.
  - rewrite (split_slash_other c s Hc). cbn [hd tl append]. now rewrite IH.
Qed.

Lemma split_slash_free (s : string) :
  Forall (fun t => occurs "/" t = false) (split "/" s).
Proof.
  induction s as [|c s IH]; [repeat constructor|].
  destruct (ascii_dec c "/") as [->|Hc].
  - rewrite split_slash_slash. now constructor.
  - rewrite (split_slash_other c s Hc).
    destruct (split "/" s) as [|h t]; inversion IH; subst; constructor; auto;
      cbn [hd occurs]; rewrite (eqb_neq_l _ _ Hc); auto.
Qed.

(** Splitting distributes over a slash. *)
Lemma split_slash_app (s t : string) :
  split "/" (s ++ String "/" t) = (split "/" s ++ split "/" t)%list.
Proof.
  induction s as [|c s IH]; cbn [append].
  - now rewrite split_slash_slash.
  - destruct (ascii_dec c "/") as [->|Hc].
    + now rewrite !split_slash_slash, IH.
    + rewrite !(split_slash_other c _ Hc), IH.
      destruct (split "/" s) as [|h r] eqn:E; [now apply split_slash_nonempty in E|].
      reflexivity.
Qed.

Lemma split_slash_segment (t : string) :
  occurs "/" t = false -> split "/" t = [t].
Proof.
  induction t as [|c t IH]; [reflexivity|].
  cbn [occurs]. intro H. apply orb_false_iff in H as [Hc Ht].
  apply Ascii.eqb_neq in Hc.
  rewrite (split_slash_other c t) by congruence. now rewrite (IH Ht).
Qed.

Lemma split_segment_tokens (tokens : list string) :
  Forall (fun t => occurs "/" t = false) tokens ->
  forall t, occurs "/" t = false ->
  split "/" (t ++ pointer_of_tokens tokens) = t :: tokens.
Proof.
  induction 1 as [|t' ts Ht' _ IH]; intros t Ht; cbn [pointer_of_tokens].
  - rewrite append_empty_r. now apply split_slash_segment.
  - now rewrite split_slash_app, (split_slash_segment t Ht), (IH t' Ht').
Qed.

Lemma split_pointer_of_tokens (tokens : list string) :
  Forall (fun t => occurs "/" t = false) tokens ->
  split "/" (pointer_of_tokens tokens) = EmptyString :: tokens.
Proof.
  intro H. apply (split_segment_tokens tokens H EmptyString). reflexivity.
Qed.

Lemma occurs_app (c : ascii) (s t : string) :
  occurs c (s ++ t) = occurs c s || occurs c t.
Proof.
  induction s as [|d s IH]; [reflexivity|].
  cbn [append occurs]. now rewrite IH, orb_assoc.
Qed.

Lemma tokens_of_pointer_app (p q : string) :
  prefix "/" q = true ->
  tokens_of_pointer (p ++ q) = (tokens_of_pointer p ++ tokens_of_pointer q)%list.
Proof.
  destruct q as [|c q]; [discriminate|].
  rewrite prefix_String, prefix_empty, andb_true_r. intro H.
  apply Ascii.eqb_eq in H. subst c.
  unfold tokens_of_pointer, TOKENS_SEPARATOR.
  rewrite split_slash_app, split_slash_slash. cbn [tl].
  destruct (split "/" p) as [|h t] eqn:E; [now apply split_slash_nonempty in E|].
  reflexivity.
Qed.

End Tokens.

Section TokenFacts.

Import JSString.

Lemma parsePointer_rev_tokens (pointer : value) :
  parsePointer pointer = rev (tokens_of_pointer (string_data pointer)).
Proof. now rewrite <- rev_parsePointer, rev_involutive. Qed.

Lemma rooted_first_segment (p : string) :
  p = EmptyString \/ prefix "/" p = true ->
  hd EmptyString (split "/" p) = EmptyString.
Proof.
  intros [->|H]; [reflexivity|].
  destruct p as [|c p]; [discriminate|].
  rewrite prefix_String, prefix_empty, andb_true_r in H.
  apply Ascii.eqb_eq in H. subst c. now rewrite split_slash_slash.
Qed.

Lemma Forall_tl {A : Type} (P : A -> Prop) (l : list A) :
  Forall P l -> Forall P (tl l).
Proof. destruct 1; [constructor|assumption]. Qed.

Lemma occurs_tokens_nonempty (s : string) :
  occurs "/" s = true -> tokens_of_pointer s <> [].
Proof.
  unfold tokens_of_pointer, TOKENS_SEPARATOR.
  induction s as [|c s IH]; [discriminate|].
  destruct (ascii_dec c "/") as [->|Hc].
  - intros _. rewrite split_slash_slash. cbn [tl]. apply split_slash_nonempty.
  - cbn [occurs]. rewrite (eqb_neq_l _ _ Hc). cbn [orb]. intro H.
    rewrite (split_slash_other c s Hc). cbn [tl]. now apply IH.
Qed.

Lemma unescape_escape_id (token : string) :
  unescapeReferenceToken (escapeReferenceToken token) = token.
Proof.
  induction token as [|c s IH]; [reflexivity|].
  destruct (ascii_dec c "~") as [->|Ht].
  - now rewrite escape_tilde, unescape_tilde, IH.
  - destruct (ascii_dec c "/") as [->|Hs].
    + now rewrite escape_slash, unescape_slash, IH.
    + now rewrite escape_char, unescape_char, IH by assumption.
Qed.

Lemma Escaped_slash_free (s : string) : Escaped s -> occurs "/" s = false.
Proof.
  induction 1 as [|c s Ht Hs _ IH|s _ IH|s _ IH].
  - reflexivity.
  - cbn [occurs]. now rewrite (eqb_neq_l _ _ Hs).
  - exact IH.
  - exact IH.
Qed.

End TokenFacts.

(** Read from the last to the first, the tokens of [parsePointer] write
    the pointer back, each after a slash, when the pointer is empty or
    starts with a slash; no token holds a slash. *)
Theorem parsePointer_writes_pointer_back (p : string) :
  p = EmptyString \/ prefix "/" p = true ->
  pointer_of_tokens (rev (parsePointer (VString p))) = p
  /\ Forall (fun t => JSString.occurs "/" t = false) (parsePointer (VString p)).
Proof.
  intro H. split.
  - rewrite rev_parsePointer. unfold tokens_of_pointer, TOKENS_SEPARATOR.
    cbn [string_data].
    rewrite <- (split_slash_join p) at 2. now rewrite (rooted_first_segment p H).
  - rewrite parsePointer_rev_tokens. apply Forall_rev.
    unfold tokens_of_pointer, TOKENS_SEPARATOR. apply Forall_tl, split_slash_free.
Qed.

Lemma parsePointer_writes_pointer_back_witness :
  ("/a//b/" = EmptyString \/ prefix "/" "/a//b/" = true)
  /\ parsePointer (VString "/a//b/") = [EmptyString; "b"; EmptyString; "a"]
  /\ pointer_of_tokens (rev (parsePointer (VString "/a//b/"))) = "/a//b/".
Proof.
  split; [right; reflexivity|]. split; [reflexivity|].
  apply (parsePointer_writes_pointer_back "/a//b/"). right. reflexivity.
Defined.

(** A pointer written from tokens that hold no slash is valid, and
    [parsePointer] gives these tokens back, reversed. *)
Theorem parsePointer_of_written_pointer (tokens : list string) :
  Forall (fun t => JSString.occurs "/" t = false) tokens ->
  isValidJSONPointer (VString (pointer_of_tokens tokens)) = true
  /\ parsePointer (VString (pointer_of_tokens tokens)) = rev tokens.
Proof.
  intro H. split.
  - rewrite isValidJSONPointer_string.
    destruct tokens; [reflexivity|]. cbn [pointer_of_tokens JSString.occurs].
    rewrite Ascii.eqb_refl. apply orb_true_r.
  - rewrite parsePointer_rev_tokens. unfold tokens_of_pointer, TOKENS_SEPARATOR.
    cbn [string_data]. now rewrite (split_pointer_of_tokens tokens H).
Qed.

Lemma parsePointer_of_written_pointer_witness :
  Forall (fun t => JSString.occurs "/" t = false) ["a"; EmptyString; "m~0n"]
  /\ pointer_of_tokens ["a"; EmptyString; "m~0n"] = "/a//m~0n"
  /\ parsePointer (VString (pointer_of_tokens ["a"; EmptyString; "m~0n"]))
     = rev ["a"; EmptyString; "m~0n"].
Proof.
  split; [repeat constructor|]. split; [reflexivity|].
  apply (parsePointer_of_written_pointer ["a"; EmptyString; "m~0n"]).
  repeat constructor.
Defined.

(** Unescaping undoes escaping, for every token: [~] and [/] written as
    [~0] and [~1] are read back as they were. *)
Theorem unescape_after_escape (token : string) :
  unescapeReferenceToken (escapeReferenceToken token) = token.
Proof. apply unescape_escape_id. Qed.

(* ===================================================================== *)
(** * Resolution: composition, keys and failures *)
(* ===================================================================== *)

Section ResolutionFacts.

Variable JSON_parse : string -> option value.

Lemma prefix_slash (s : string) : prefix "/" (String "/" s) = true.
Proof. now rewrite prefix_String, prefix_empty. Qed.

Lemma valid_app (p q : string) :
  prefix "/" q = true -> isValidJSONPointer (VString (p ++ q)) = true.
Proof.
  intro H. rewrite isValidJSONPointer_string, occurs_app.
  destruct q as [|c q]; [discriminate|].
  rewrite prefix_String, prefix_empty, andb_true_r in H.
  apply Ascii.eqb_eq in H. subst c. cbn [JSString.occurs].
  rewrite Ascii.eqb_refl. cbn [orb]. now rewrite !orb_true_r.
Qed.

Lemma valid_rooted (s : string) :
  isValidJSONPointer (VString (String "/" s)) = true.
Proof. exact (valid_app EmptyString (String "/" s) (prefix_slash s)). Qed.

(** Where a fold fails, it fails at one token, in an array context that
    the tokens before it have reached. *)
Lemma evaluate_failure_located (document : value) (tokens : list string)
    (e : error) :
  evaluate document tokens = Throw e ->
  exists pre token post context,
    tokens = (pre ++ token :: post)%list
    /\ evaluate document pre = Return context
    /\ isArray context = true
    /\ getValue context token = Throw e.
Proof.
  revert document. induction tokens as [|t ts IH]; intros v H; [discriminate|].
  rewrite evaluate_cons in H.
  destruct (getValue v t) as [v'|e'] eqn:E; cbn [bind] in H.
  - destruct (IH v' H) as (pre & token & post & context & -> & Hpre & Ha & Ht).
    exists (t :: pre), token, post, context. repeat split; auto.
    rewrite evaluate_cons, E. exact Hpre.
  - injection H as ->. exists [], t, ts, v. repeat split; auto.
    now apply getValue_failure in E.
Qed.

Lemma evaluate_scalar (v : value) (tokens : list string) :
  isArray v = false -> isObject v = false -> tokens <> [] ->
  evaluate v tokens = Return VUndefined.
Proof.
  intros Ha Ho Hne. destruct tokens as [|t ts]; [congruence|].
  rewrite evaluate_cons. unfold getValue. rewrite Ha, Ho. cbn [bind].
  apply evaluate_undefined.
Qed.

End ResolutionFacts.

(** Resolution composes: for a valid pointer [p] and a text [q] that
    starts with a slash, resolving [p ++ q] is resolving [p] and then
    folding the tokens of [q] from the value reached; a failure of the
    first part is the failure of the whole. *)
Theorem getPointedValue_composes
    (JSON_parse : string -> option value) (target document : value)
    (p q : string) :
  isString target = true ->
  JSON_parse (string_data target) = Some document ->
  isValidJSONPointer (VString p) = true ->
  prefix "/" q = true ->
  getPointedValue JSON_parse target (VString (p ++ q))
  = bind (getPointedValue JSON_parse target (VString p))
         (fun reached => evaluate reached (tokens_of_pointer q)).
Proof.
  intros Hs Hd Hp Hq.
  rewrite (getPointedValue_evaluate JSON_parse target (VString (p ++ q)) document
             Hs (valid_app p q Hq) Hd).
  rewrite (getPointedValue_evaluate JSON_parse target (VString p) document Hs Hp Hd).
  cbn [string_data]. now rewrite (tokens_of_pointer_app p q Hq), evaluate_app.
Qed.

Lemma getPointedValue_composes_witness :
  (isString example_document = true
   /\ JSON.parse (string_data example_document)
      = Some (VObject [("a", VObject [("b", VArray [VNumber (number_of_nat 1);
                                                     VNumber (number_of_nat 2);
                                                     VNumber (number_of_nat 3)])])])
   /\ isValidJSONPointer (VString "/a") = true
   /\ prefix "/" "/b/2" = true)
  /\ getPointedValue JSON.parse example_document (VString ("/a" ++ "/b/2"))
     = bind (getPointedValue JSON.parse example_document (VString "/a"))
            (fun reached => evaluate reached (tokens_of_pointer "/b/2")).
Proof.
  split; [repeat split; reflexivity|].
  apply (getPointedValue_composes JSON.parse example_document
           (VObject [("a", VObject [("b", VArray [VNumber (number_of_nat 1);
                                                   VNumber (number_of_nat 2);
                                                   VNumber (number_of_nat 3)])])]));
    reflexivity.
Defined.

(** What stands before the first slash of a pointer is not read: a
    pointer [x/rest], with no slash in [x], resolves as [/rest] does. *)
Theorem getPointedValue_ignores_first_segment
    (JSON_parse : string -> option value) (target : value) (x rest : string) :
  JSString.occurs "/" x = false ->
  getPointedValue JSON_parse target (VString (x ++ String "/" rest))
  = getPointedValue JSON_parse target (VString (String "/" rest)).
Proof.
  intro Hx. unfold getPointedValue.
  rewrite (valid_app x (String "/" rest) (prefix_slash rest)).
  rewrite (valid_rooted rest).
  rewrite !parsePointer_rev_tokens. cbn [string_data].
  rewrite (tokens_of_pointer_app x (String "/" rest) (prefix_slash rest)).
  unfold tokens_of_pointer at 1, TOKENS_SEPARATOR.
  now rewrite (split_slash_segment x Hx).
Qed.

Lemma getPointedValue_ignores_first_segment_witness :
  JSString.occurs "/" "anything" = false
  /\ getPointedValue JSON.parse example_document (VString ("anything" ++ "/a/b/0"))
     = getPointedValue JSON.parse example_document (VString "/a/b/0")
  /\ getPointedValue JSON.parse example_document (VString "/a/b/0")
     = Return (VNumber (number_of_nat 1)).
Proof.
  split; [reflexivity|]. split; [|reflexivity].
  apply (getPointedValue_ignores_first_segment JSON.parse example_document
           "anything" "a/b/0").
  reflexivity.
Defined.

(** Every failure of [getPointedValue] is one of six: the three of the
    arguments, or a failure of one step, raised at one token of the
    pointer in an array context that the tokens before it reach. *)
Theorem getPointedValue_failure_is_located
    (JSON_parse : string -> option value) (target pointer : value) (e : error) :
  getPointedValue JSON_parse target pointer = Throw e ->
  e = getError ErrorMessage.INVALID_DOCUMENT_TYPE
  \/ e = getError ErrorMessage.INVALID_POINTER
  \/ e = getError ErrorMessage.INVALID_DOCUMENT
  \/ (step_failure e
      /\ exists document pre token post context,
           JSON_parse (string_data target) = Some document
           /\ tokens_of_pointer (string_data pointer) = (pre ++ token :: post)%list
           /\ evaluate document pre = Return context
           /\ isArray context = true
           /\ getValue context token = Throw e).
Proof.
  unfold getPointedValue.
  destruct (isString target); cbn [negb]; [|intros [= <-]; auto].
  destruct (isValidJSONPointer pointer); cbn [negb]; [|intros [= <-]; auto].
  destruct (JSON_parse (string_data target)) as [document|]; [|intros [= <-]; auto].
  rewrite getPointedValue_loop_evaluate, rev_parsePointer. intro H.
  right. right. right. split; [now apply evaluate_failure in H|].
  destruct (evaluate_failure_located _ _ _ H)
    as (pre & token & post & context & Ht & Hpre & Ha & Hv).
  now exists document, pre, token, post, context.
Qed.

Lemma getPointedValue_failure_is_located_witness :
  getPointedValue JSON.parse example_document (VString "/a/b/x/y")
  = Throw (getError ErrorMessage.NON_NUMBER_TOKEN_IN_ARRAY_CONTEXT)
  /\ (getError ErrorMessage.NON_NUMBER_TOKEN_IN_ARRAY_CONTEXT
      = getError ErrorMessage.INVALID_DOCUMENT_TYPE
      \/ getError ErrorMessage.NON_NUMBER_TOKEN_IN_ARRAY_CONTEXT
         = getError ErrorMessage.INVALID_POINTER
      \/ getError ErrorMessage.NON_NUMBER_TOKEN_IN_ARRAY_CONTEXT
         = getError ErrorMessage.INVALID_DOCUMENT
      \/ (step_failure (getError ErrorMessage.NON_NUMBER_TOKEN_IN_ARRAY_CONTEXT)
          /\ exists document pre token post context,
               JSON.parse (string_data example_document) = Some document
               /\ tokens_of_pointer (string_data (VString "/a/b/x/y"))
                  = (pre ++ token :: post)%list
               /\ evaluate document pre = Return context
               /\ isArray context = true
               /\ getValue context token
                  = Throw (getError ErrorMessage.NON_NUMBER_TOKEN_IN_ARRAY_CONTEXT))).
Proof.
  split; [reflexivity|].
  apply (getPointedValue_failure_is_located JSON.parse example_document
           (VString "/a/b/x/y")).
  reflexivity.
Defined.

(** On a document that is a scalar or null, every valid pointer but the
    empty one gives "absent", and no failure. *)
Theorem scalar_document_is_absent
    (JSON_parse : string -> option value) (target pointer document : value) :
  isString target = true ->
  isValidJSONPointer pointer = true ->
  string_data pointer <> EmptyString ->
  JSON_parse (string_data target) = Some document ->
  isArray document = false ->
  isObject document = false ->
  getPointedValue JSON_parse target pointer = Return VUndefined.
Proof.
  intros Hs Hp Hne Hd Ha Ho.
  rewrite (getPointedValue_evaluate JSON_parse target pointer document Hs Hp Hd).
  apply evaluate_scalar; auto.
  apply occurs_tokens_nonempty.
  destruct pointer as [| | | |s| | |s|[]]; try (cbn in Hp; discriminate Hp);
    cbn [string_data] in *.
  - rewrite isValidJSONPointer_string in Hp.
    destruct s; [congruence|]. exact Hp.
  - now rewrite isValidJSONPointer_wrapper in Hp.
Qed.

Lemma scalar_document_is_absent_witness :
  (isString (VString "null") = true
   /\ isValidJSONPointer (VString "/a/-/01") = true
   /\ string_data (VString "/a/-/01") <> EmptyString
   /\ JSON.parse (string_data (VString "null")) = Some VNull
   /\ isArray VNull = false
   /\ isObject VNull = false)
  /\ getPointedValue JSON.parse (VString "null") (VString "/a/-/01")
     = Return VUndefined.
Proof.
  split; [repeat split; first [reflexivity|discriminate]|].
  apply (scalar_document_is_absent JSON.parse (VString "null") (VString "/a/-/01") VNull);
    first [reflexivity|discriminate].
Defined.

(* ===================================================================== *)
(** * The array context: elements and nothing else *)
(* ===================================================================== *)

Section ArrayOnly.

Import StringToNumber.

Lemma white_space_not_index (u : string) :
  all is_white_space u = true -> array_index u = None.
Proof.
  intro H. unfold array_index.
  destruct u as [|c u]; [reflexivity|].
  cbn [all] in H. apply andb_true_iff in H as [Hc _].
  unfold NilZero.uint_of_string.
  change (NilEmpty.uint_of_string (String c u))
    with (uint_of_char c (NilEmpty.uint_of_string u)).
  destruct (NilEmpty.uint_of_string u) as [d|]; [|reflexivity].
  destruct c as [[] [] [] [] [] [] [] []]; first [discriminate Hc | reflexivity].
Qed.

Lemma white_space_isNumber (u : string) :
  all is_white_space u = true -> isNumber u = true.
Proof.
  intro H. unfold isNumber, Number_isNaN, StringNumericLiteral.
  now rewrite (skip_all _ _ H).
Qed.

Lemma white_space_no_leading_zero (u : string) :
  all is_white_space u = true -> has_leading_zero u = false.
Proof.
  intro H. unfold has_leading_zero. destruct u as [|c u]; [reflexivity|].
  cbn [all] in H. apply andb_true_iff in H as [Hc _].
  cbn [JSString.first_char String.get].
  destruct (Ascii.eqb "0" c) eqn:E; [|apply andb_false_r].
  apply Ascii.eqb_eq in E. subst c. discriminate Hc.
Qed.

End ArrayOnly.

(** In an array context a step returns an element of the array, under
    the decimal text of its index, or "absent": never the length of the
    array or a method of its prototypes. *)
Theorem array_context_gives_elements_only
    (elements : list value) (token : string) (x : value) :
  getValue (VArray elements) token = Return x ->
  x = VUndefined
  \/ exists i, nth_error elements i = Some x
               /\ unescapeReferenceToken token = ToString_index (N.of_nat i).
Proof.
  unfold getValue. cbn [isArray Array_isArray].
  destruct (String.eqb "-" _); [discriminate|].
  destruct (isNumber (unescapeReferenceToken token)) eqn:Hn; [|discriminate].
  cbn [negb]. destruct (has_leading_zero _); [discriminate|].
  rewrite (Get_array_numeric elements _ Hn).
  destruct (indexed elements _) as [v|] eqn:E; intros [= <-]; [|now left].
  right. apply indexed_Some in E as (i & _ & Hkey & Hnth). now exists i.
Qed.

Lemma array_context_gives_elements_only_witness :
  getValue (VArray [VNull; VBoolean true]) "1" = Return (VBoolean true)
  /\ (VBoolean true = VUndefined
      \/ exists i, nth_error [VNull; VBoolean true] i = Some (VBoolean true)
                   /\ unescapeReferenceToken "1" = ToString_index (N.of_nat i)).
Proof.
  split; [reflexivity|].
  apply (array_context_gives_elements_only [VNull; VBoolean true] "1").
  reflexivity.
Defined.

(** In an array context the decimal text of an index gives the element
    at that index, and "absent" when the index is not below the length. *)
Theorem getValue_array_at_index (elements : list value) (i : nat) :
  getValue (VArray elements) (ToString_index (N.of_nat i))
  = Return (nth i elements VUndefined).
Proof.
  destruct (digits_ToString (N.of_nat i)) as [Hs Ha].
  pose proof (base10_integer_isNumber _ (digits_base10_integer _ Hs Ha)) as Hn.
  unfold getValue. rewrite (unescape_digits _ Ha).
  cbn [isArray Array_isArray].
  rewrite Hn, ToString_no_leading_zero. cbn [negb].
  destruct (String.eqb "-" _) eqn:E.
  - apply String.eqb_eq in E. rewrite <- E in Hs. discriminate Hs.
  - rewrite (Get_array_numeric _ _ Hn), indexed_ToString. f_equal.
    destruct (nth_error elements i) as [x|] eqn:Hx.
    + symmetry. now apply nth_error_nth.
    + symmetry. apply nth_overflow. now apply nth_error_None.
Qed.

(** In an array context a token of white space alone, the empty token
    among them, passes the numeric check and gives "absent". *)
Theorem white_space_token_in_array_context
    (elements : list value) (token : string) :
  StringToNumber.all StringToNumber.is_white_space (unescapeReferenceToken token)
  = true ->
  getValue (VArray elements) token = Return VUndefined.
Proof.
  intro H. apply getValue_array_no_element.
  - intro E. rewrite E in H. discriminate H.
  - now apply white_space_isNumber.
  - now apply white_space_no_leading_zero.
  - unfold indexed. now rewrite (white_space_not_index _ H).
Qed.

Lemma white_space_token_in_array_context_witness :
  StringToNumber.all StringToNumber.is_white_space (unescapeReferenceToken EmptyString)
  = true
  /\ getValue (VArray [VNull]) EmptyString = Return VUndefined
  /\ getPointedValue JSON.parse example_document (VString "/a/b/")
     = Return VUndefined.
Proof.
  split; [reflexivity|]. split; [|reflexivity].
  apply (white_space_token_in_array_context [VNull] EmptyString). reflexivity.
Defined.

(* ===================================================================== *)
(** * The validator, exactly *)
(* ===================================================================== *)

(** [isValidJSONPointer] accepts the empty string, and every string or
    [String] wrapper in whose text a slash occurs, and nothing else: the
    wrapper of the empty text is not valid, since [''] is strictly equal
    to no object, and [getPointedValue] rejects it where it resolves the
    empty string to the document. *)
Theorem isValidJSONPointer_exactly :
  (forall v : value,
      isValidJSONPointer v = true
      <-> v = VString EmptyString
          \/ (isString v = true /\ JSString.occurs "/" (string_data v) = true))
  /\ (forall (JSON_parse : string -> option value) (target : value),
         isString target = true ->
         getPointedValue JSON_parse target (VStringObject EmptyString)
         = Throw (getError ErrorMessage.INVALID_POINTER)).
Proof.
  split.
  - intro v. split.
    + intro H. destruct (isString v) eqn:Hs;
        [|now rewrite (isValidJSONPointer_not_string v Hs) in H].
      destruct v as [| | | |s| | |s|[]]; try discriminate Hs.
      * rewrite isValidJSONPointer_string in H. apply orb_true_iff in H as [H|H].
        -- left. destruct s; [reflexivity|discriminate H].
        -- right. now split.
      * rewrite isValidJSONPointer_wrapper in H. right. now split.
    + intros [->|[Hs Ho]]; [reflexivity|].
      destruct v as [| | | |s| | |s|[]]; try discriminate Hs; cbn [string_data] in Ho.
      * rewrite isValidJSONPointer_string, Ho. apply orb_true_r.
      * now rewrite isValidJSONPointer_wrapper.
  - intros JSON_parse target Hs. unfold getPointedValue. now rewrite Hs.
Qed.

Lemma isValidJSONPointer_exactly_witness :
  isValidJSONPointer (VStringObject "/a") = true
  /\ isValidJSONPointer (VStringObject EmptyString) = false
  /\ getPointedValue JSON.parse example_document (VStringObject EmptyString)
     = Throw (getError ErrorMessage.INVALID_POINTER).
Proof.
  split; [|split].
  - apply (proj1 isValidJSONPointer_exactly). right. split; reflexivity.
  - reflexivity.
  - apply (proj2 isValidJSONPointer_exactly). reflexivity.
Defined.

(* ===================================================================== *)
(** * Unescaping leaves plain tokens alone *)
(* ===================================================================== *)

Section Plain.

Import JSString.

Lemma prefix_length (p s : string) :
  prefix p s = true -> String.length p <= String.length s.
Proof.
  revert s. induction p as [|a p IH]; intros s H; [cbn; lia|].
  destruct s as [|b s]; [discriminate|].
  rewrite prefix_String in H. apply andb_true_iff in H as [_ H].
  cbn [String.length]. apply IH in H. lia.
Qed.

Lemma append_length (s t : string) :
  String.length (s ++ t) = String.length s + String.length t.
Proof. induction s as [|c s IH]; [reflexivity|]. cbn [append String.length]. now rewrite IH. Qed.

(** A replacement that is not longer than the pattern does not lengthen
    the text; [k] characters still to be passed over are dropped. *)
Lemma replace_from_length (pat rep : string) :
  String.length rep <= String.length pat ->
  forall (s : string) (k : nat),
    String.length (replace_from pat rep k s) <= String.length s - k.
Proof.
  intro Hlen. induction s as [|c s IH]; intro k; [cbn; lia|].
  destruct k as [|k].
  - rewrite replace_from_here.
    destruct (prefix pat (String c s)) eqn:E.
    + apply prefix_length in E. cbn [String.length] in *.
      rewrite append_length. specialize (IH (String.length pat - 1)). lia.
    + cbn [String.length]. specialize (IH 0). lia.
  - rewrite replace_from_skip. cbn [String.length]. specialize (IH k). lia.
Qed.

End Plain.

(** Unescaping never lengthens a token, and leaves a token without a
    tilde as it is. *)
Theorem unescape_shortens_or_keeps :
  (forall token : string,
      String.length (unescapeReferenceToken token) <= String.length token)
  /\ (forall token : string,
         JSString.occurs "~" token = false ->
         unescapeReferenceToken token = token).
Proof.
  split.
  - intro token. unfold unescapeReferenceToken, JSString.replace_all.
    cbn [fold_left SPECIAL_CHARACTERS fst snd].
    pose proof (replace_from_length "~1" "/" ltac:(cbn; lia) token 0) as H1.
    pose proof (replace_from_length "~0" "~" ltac:(cbn; lia)
                  (JSString.replace_from "~1" "/" 0 token) 0) as H2.
    lia.
  - induction token as [|c s IH]; [reflexivity|].
    cbn [JSString.occurs]. intro H. apply orb_false_iff in H as [Hc Hs].
    apply Ascii.eqb_neq in Hc.
    rewrite unescape_char by congruence. now rewrite (IH Hs).
Qed.

Lemma unescape_shortens_or_keeps_witness :
  String.length (unescapeReferenceToken "a~1b~0c~") <= String.length "a~1b~0c~"
  /\ unescapeReferenceToken "a~1b~0c~" = "a/b~c~"
  /\ unescapeReferenceToken "plain token" = "plain token".
Proof.
  split; [apply (proj1 unescape_shortens_or_keeps)|].
  split; [reflexivity|].
  apply (proj2 unescape_shortens_or_keeps). reflexivity.
Defined.

(** The key [b] is missing from [{"a":1}] and names no property of
    [Object.prototype]. *)
Lemma getValue_object_absent_witness :
  (assoc (unescapeReferenceToken "b") [("a", VNumber (number_of_nat 1))] = None
   /\ GetOwnProperty (VIntrinsic ObjectPrototype) (unescapeReferenceToken "b") = None)
  /\ getValue (VObject [("a", VNumber (number_of_nat 1))]) "b" = Return VUndefined.
Proof.
  split; [split; reflexivity|].
  apply getValue_object_absent; reflexivity.
Defined.

(* ===================================================================== *)
(** * Every member of a document has a pointer *)
(* ===================================================================== *)

Section Members.

(** The element under a key that names it is what the step returns. *)
Lemma getValue_array_indexed (elements : list value) (token : string) (x : value) :
  indexed elements (unescapeReferenceToken token) = Some x ->
  getValue (VArray elements) token = Return x.
Proof.
  intro H. pose proof H as H'.
  apply indexed_Some in H' as (i & _ & Hkey & _).
  destruct (digits_ToString (N.of_nat i)) as [Hs Ha]. rewrite Hkey in Hs, Ha.
  pose proof (base10_integer_isNumber _ (digits_base10_integer _ Hs Ha)) as Hn.
  unfold getValue. cbn [isArray Array_isArray].
  rewrite Hn. rewrite <- Hkey at 2. rewrite ToString_no_leading_zero. cbn [negb].
  destruct (String.eqb "-" _) eqn:E.
  - apply String.eqb_eq in E. rewrite <- E in Hs. discriminate Hs.
  - now rewrite (Get_array_numeric _ _ Hn), H.
Qed.

Lemma getValue_object_assoc (properties : list (string * value))
    (token : string) (x : value) :
  assoc (unescapeReferenceToken token) properties = Some x ->
  getValue (VObject properties) token = Return x.
Proof.
  intro H. unfold getValue, Get, prototype_chain.
  cbn [isArray Array_isArray isObject typeof String.eqb Ascii.eqb Bool.eqb
       null_strict_equals negb andb GetPrototypeOf find_property GetOwnProperty].
  now rewrite H.
Qed.

Lemma evaluate_member (path : list string) :
  forall (document v : value),
    member document path = Some v ->
    evaluate document (map escapeReferenceToken path) = Return v.
Proof.
  induction path as [|k path IH]; intros document v H.
  - now injection H as ->.
  - cbn [map]. rewrite evaluate_cons. cbn [member] in H.
    destruct document as [| | | | |elements|properties| |]; try discriminate H.
    + destruct (indexed elements k) as [v'|] eqn:E; [|discriminate H].
      rewrite (getValue_array_indexed elements (escapeReferenceToken k) v')
        by now rewrite unescape_escape_id.
      cbn [bind]. now apply IH.
    + destruct (assoc k properties) as [v'|] eqn:E; [|discriminate H].
      rewrite (getValue_object_assoc properties (escapeReferenceToken k) v')
        by now rewrite unescape_escape_id.
      cbn [bind]. now apply IH.
Qed.

Lemma escaped_tokens_slash_free (path : list string) :
  Forall (fun t => JSString.occurs "/" t = false) (map escapeReferenceToken path).
Proof.
  induction path as [|k path IH]; constructor; [|exact IH].
  apply Escaped_slash_free, Escaped_escape.
Qed.

Lemma valid_pointer_of_tokens (tokens : list string) :
  isValidJSONPointer (VString (pointer_of_tokens tokens)) = true.
Proof.
  destruct tokens; [reflexivity|]. cbn [pointer_of_tokens]. apply valid_rooted.
Qed.

End Members.

(** Every member of the parsed document, at the end of a path of keys of
    objects and indices of arrays, is what [getPointedValue] returns for
    the pointer written from the escaped keys, whatever characters the
    keys hold. *)
Theorem every_member_is_addressable
    (JSON_parse : string -> option value) (target document : value)
    (path : list string) (v : value) :
  isString target = true ->
  JSON_parse (string_data target) = Some document ->
  member document path = Some v ->
  getPointedValue JSON_parse target
    (VString (pointer_of_tokens (map escapeReferenceToken path)))
  = Return v.
Proof.
  intros Hs Hd Hm.
  rewrite (getPointedValue_evaluate JSON_parse target _ document Hs
             (valid_pointer_of_tokens _) Hd).
  cbn [string_data]. unfold tokens_of_pointer, TOKENS_SEPARATOR.
  rewrite (split_pointer_of_tokens _ (escaped_tokens_slash_free path)).
  cbn [tl]. now apply evaluate_member.
Qed.

Lemma every_member_is_addressable_witness :
  (isString (VString (JSON.text "{'m~n': {'p/q': [7, 8]}}")) = true
   /\ JSON.parse (JSON.text "{'m~n': {'p/q': [7, 8]}}")
      = Some (VObject [("m~n", VObject [("p/q", VArray [VNumber (number_of_nat 7);
                                                         VNumber (number_of_nat 8)])])])
   /\ member (VObject [("m~n", VObject [("p/q", VArray [VNumber (number_of_nat 7);
                                                         VNumber (number_of_nat 8)])])])
             ["m~n"; "p/q"; "1"]
      = Some (VNumber (number_of_nat 8)))
  /\ pointer_of_tokens (map escapeReferenceToken ["m~n"; "p/q"; "1"])
     = "/m~0n/p~1q/1"
  /\ getPointedValue JSON.parse (VString (JSON.text "{'m~n': {'p/q': [7, 8]}}"))
       (VString (pointer_of_tokens (map escapeReferenceToken ["m~n"; "p/q"; "1"])))
     = Return (VNumber (number_of_nat 8)).
Proof.
  split; [repeat split; reflexivity|]. split; [reflexivity|].
  apply (every_member_is_addressable JSON.parse _
           (VObject [("m~n", VObject [("p/q", VArray [VNumber (number_of_nat 7);
                                                       VNumber (number_of_nat 8)])])])
           ["m~n"; "p/q"; "1"]);
    reflexivity.
Defined.

(** Every failure carries a message that starts with the prefix
    "JSON Pointer: ", followed by one of the six messages. *)
Theorem every_failure_is_prefixed
    (JSON_parse : string -> option value) (target pointer : value)
    (message : string) :
  getPointedValue JSON_parse target pointer = Throw (Error message) ->
  prefix ERROR_MESSAGE_PREFIX message = true
  /\ In message
        (map (append ERROR_MESSAGE_PREFIX)
           [ ErrorMessage.HYPHEN_IS_NOT_SUPPORTED_IN_ARRAY_CONTEXT;
             ErrorMessage.INVALID_DOCUMENT;
             ErrorMessage.INVALID_DOCUMENT_TYPE;
             ErrorMessage.INVALID_POINTER;
             ErrorMessage.NON_NUMBER_TOKEN_IN_ARRAY_CONTEXT;
             ErrorMessage.TOKEN_WITH_LEADING_ZERO_IN_ARRAY_CONTEXT ]).
Proof.
  intro H.
  assert (Hsix : Error message = getError ErrorMessage.INVALID_DOCUMENT_TYPE
                 \/ Error message = getError ErrorMessage.INVALID_POINTER
                 \/ Error message = getError ErrorMessage.INVALID_DOCUMENT
                 \/ step_failure (Error message)).
  { revert H. unfold getPointedValue.
    destruct (isString target); cbn [negb]; [|intros [= <-]; auto].
    destruct (isValidJSONPointer pointer); cbn [negb]; [|intros [= <-]; auto].
    destruct (JSON_parse (string_data target)) as [document|]; [|intros [= <-]; auto].
    rewrite getPointedValue_loop_evaluate. intro H.
    right. right. right. now apply evaluate_failure in H. }
  unfold step_failure, getError in Hsix.
  destruct Hsix as [E|[E|[E|[E|[E|E]]]]]; injection E as ->;
    (split; [reflexivity|cbn [map In]; tauto]).
Qed.

Lemma every_failure_is_prefixed_witness :
  getPointedValue JSON.parse example_document (VString "/a/b/01")
  = Throw (Error "JSON Pointer: Token with leading zero cannot be used in array context.")
  /\ prefix ERROR_MESSAGE_PREFIX
       "JSON Pointer: Token with leading zero cannot be used in array context."
     = true.
Proof.
  split; [reflexivity|].
  apply (every_failure_is_prefixed JSON.parse example_document (VString "/a/b/01")).
  reflexivity.
Defined.
